(** * Membership ledger of the library backend

    Shallow embedding of the membership lifecycle routes of
    [Backend/routes/students.js] (Enroll [POST /], Edit [PUT /:id],
    Renew [POST /:id/renew], status update [PUT /:id/status],
    Delete [DELETE /:id]) and of the payment route
    [PUT /:historyId] of [Backend/routes/collections.js].

    The PostgreSQL tables the routes touch are lists of rows; money columns
    are rationals ([Q]); a column the code may write as SQL NULL is an
    [option]. Every [client.query]/[pool.query] is one statement of a small
    state-and-error monad; a storage failure is injected by a statement
    budget ([Some k]: statement number [k] throws). Routes wrapped in
    [BEGIN]/[COMMIT]/[ROLLBACK] go back to the state they started from on
    any error; a route that uses [pool.query] directly keeps every statement
    that ran before the error (auto-commit). HTTP 400/404/500 answers are
    classified by the error kinds of the specification. *)

From Stdlib Require Import List Bool Arith Ascii String QArith Lqa Lia.
Import ListNotations.
Open Scope nat_scope.

(** ** Rows *)

Record student := mkStudent {
  s_id : nat;
  s_name : string;
  s_phone : string;
  s_branch_id : nat;
  s_locker_id : option nat;
  s_membership_start : string;
  s_membership_end : string;
  s_total_fee : Q;
  s_amount_paid : Q;
  s_due_amount : Q;
  s_cash : option Q;
  s_online : option Q;
  s_discount : Q;
  s_is_active : bool }.

Record locker := mkLocker {
  l_id : nat;
  l_is_assigned : bool;
  l_student_id : option nat }.

Record seat_assignment := mkAssignment {
  sa_seat_id : option nat;
  sa_shift_id : nat;
  sa_student_id : nat }.

(** A row of [student_membership_history]. *)
Record history_row := mkHistory {
  h_id : nat;
  h_student_id : nat;
  h_membership_start : string;
  h_membership_end : string;
  h_total_fee : Q;
  h_amount_paid : Q;
  h_due_amount : Q;
  h_cash : option Q;
  h_online : option Q;
  h_discount : Q;
  h_seat_id : option nat;
  h_shift_id : option nat;
  h_branch_id : nat;
  h_locker_id : option nat }.

Record db := mkDB {
  students : list student;
  lockers : list locker;
  seat_assignments : list seat_assignment;
  history : list history_row;
  seats : list nat;
  schedules : list nat;
  next_student_id : nat;
  next_history_id : nat }.

(** [parseFloat(x) || 0] on a nullable numeric column. *)
Definition col (x : option Q) : Q :=
  match x with Some q => q | None => 0%Q end.

Definition opt_eqb (x y : option nat) : bool :=
  match x, y with
  | Some a, Some b => a =? b
  | None, None => true
  | _, _ => false
  end.

(** ** Responses and the statement monad *)

Inductive error :=
| ValidationError
| Conflict
| NotFound
| Internal.

Inductive response :=
| Ok
| Error (e : error).

Inductive outcome (A : Type) :=
| Done (a : A) (budget : option nat) (d : db)
| Throw (e : error) (d : db).
Arguments Done {A}.
Arguments Throw {A}.

Definition M (A : Type) := option nat -> db -> outcome A.

Definition ret {A} (a : A) : M A := fun b d => Done a b d.

Definition bind {A B} (m : M A) (k : A -> M B) : M B :=
  fun b d =>
    match m b d with
    | Done a b' d' => k a b' d'
    | Throw e d' => Throw e d'
    end.

(** An early [return res.status(..)]. *)
Definition fail {A} (e : error) : M A := fun _ d => Throw e d.

(** One SQL statement; it throws when the budget is exhausted. *)
Definition query {A} (f : db -> A * db) : M A :=
  fun b d =>
    match b with
    | Some 0 => Throw Internal d
    | _ => let (a, d') := f d in Done a (option_map pred b) d'
    end.

Definition select {A} (f : db -> A) : M A := query (fun d => (f d, d)).
Definition exec (f : db -> db) : M unit := query (fun d => (tt, f d)).

Notation "x <- m ;; k" := (bind m (fun x => k))
  (at level 61, m at next level, right associativity).
Notation "m ;; k" := (bind m (fun _ => k))
  (at level 61, right associativity).

(** [for (const x of l) { body }] *)
Fixpoint for_ {A} (l : list A) (body : A -> M unit) : M unit :=
  match l with
  | [] => ret tt
  | x :: t => body x ;; for_ t body
  end.

(** [BEGIN ... COMMIT], with [ROLLBACK] on every error. *)
Definition transaction (m : M unit) (b : option nat) (d : db) : response * db :=
  match m b d with
  | Done _ _ d' => (Ok, d')
  | Throw e _ => (Error e, d)
  end.

(** Statements sent through [pool.query] one by one. *)
Definition autocommit (m : M unit) (b : option nat) (d : db) : response * db :=
  match m b d with
  | Done _ _ d' => (Ok, d')
  | Throw e d' => (Error e, d')
  end.

(** ** Table operations *)

Definition set_students (d : db) (l : list student) : db :=
  mkDB l (lockers d) (seat_assignments d) (history d) (seats d) (schedules d)
       (next_student_id d) (next_history_id d).
Definition set_lockers (d : db) (l : list locker) : db :=
  mkDB (students d) l (seat_assignments d) (history d) (seats d) (schedules d)
       (next_student_id d) (next_history_id d).
Definition set_assignments (d : db) (l : list seat_assignment) : db :=
  mkDB (students d) (lockers d) l (history d) (seats d) (schedules d)
       (next_student_id d) (next_history_id d).
Definition set_history (d : db) (l : list history_row) : db :=
  mkDB (students d) (lockers d) (seat_assignments d) l (seats d) (schedules d)
       (next_student_id d) (next_history_id d).

Definition find_student (id : nat) (d : db) : option student :=
  find (fun s => s_id s =? id) (students d).
Definition find_locker (id : nat) (d : db) : option locker :=
  find (fun l => l_id l =? id) (lockers d).
Definition find_history (id : nat) (d : db) : option history_row :=
  find (fun h => h_id h =? id) (history d).

(** [UPDATE students SET ... WHERE id = $id RETURNING *] *)
Definition update_student (id : nat) (f : student -> student) (d : db)
  : option student * db :=
  (option_map f (find_student id d),
   set_students d (map (fun s => if s_id s =? id then f s else s) (students d))).

(** [UPDATE locker SET is_assigned = false, student_id = NULL WHERE id = $1] *)
Definition free_locker (lid : nat) (d : db) : db :=
  set_lockers d (map (fun l => if l_id l =? lid then mkLocker (l_id l) false None
                               else l) (lockers d)).

(** [UPDATE locker SET is_assigned = false, student_id = NULL WHERE student_id = $1] *)
Definition free_lockers_of (sid : nat) (d : db) : db :=
  set_lockers d (map (fun l => if opt_eqb (l_student_id l) (Some sid)
                               then mkLocker (l_id l) false None else l) (lockers d)).

(** [UPDATE locker SET is_assigned = true, student_id = $1 WHERE id = $2] *)
Definition assign_locker (sid lid : nat) (d : db) : db :=
  set_lockers d (map (fun l => if l_id l =? lid then mkLocker (l_id l) true (Some sid)
                               else l) (lockers d)).

(** [DELETE FROM seat_assignments WHERE student_id = $1] *)
Definition delete_assignments (sid : nat) (d : db) : db :=
  set_assignments d (filter (fun a => negb (sa_student_id a =? sid)) (seat_assignments d)).

(** [INSERT INTO seat_assignments (seat_id, shift_id, student_id)]; no
    uniqueness constraint on [(seat_id, shift_id)] is declared by the code. *)
Definition insert_assignment (a : seat_assignment) (d : db) : db :=
  set_assignments d (seat_assignments d ++ [a]).

Definition seat_taken (seat : nat) (shift : nat) (d : db) : bool :=
  existsb (fun a => opt_eqb (sa_seat_id a) (Some seat) && (sa_shift_id a =? shift))
          (seat_assignments d).

(** [... AND student_id != $3] *)
Definition seat_taken_by_other (seat shift sid : nat) (d : db) : bool :=
  existsb (fun a => opt_eqb (sa_seat_id a) (Some seat) && (sa_shift_id a =? shift)
                    && negb (sa_student_id a =? sid))
          (seat_assignments d).

(** [INSERT INTO student_membership_history ...]; [id] is a serial column. *)
Definition insert_history (mk : nat -> history_row) (d : db) : db :=
  mkDB (students d) (lockers d) (seat_assignments d)
       (history d ++ [mk (next_history_id d)]) (seats d) (schedules d)
       (next_student_id d) (S (next_history_id d)).

(** [SELECT id FROM student_membership_history WHERE student_id = $1
     ORDER BY id DESC LIMIT 1] *)
Fixpoint latest_history_id (sid : nat) (hs : list history_row) : option nat :=
  match hs with
  | [] => None
  | h :: t =>
      let r := latest_history_id sid t in
      if h_student_id h =? sid then
        match r with
        | Some m => Some (Nat.max (h_id h) m)
        | None => Some (h_id h)
        end
      else r
  end.

(** [UPDATE student_membership_history SET ... WHERE id = (latest of sid)] *)
Definition overwrite_latest_history (sid : nat) (f : history_row -> history_row)
  (d : db) : db :=
  let target := latest_history_id sid (history d) in
  set_history d (map (fun h => if opt_eqb (Some (h_id h)) target then f h else h)
                     (history d)).

(** [DELETE FROM student_membership_history WHERE student_id = $1] *)
Definition delete_history (sid : nat) (d : db) : db :=
  set_history d (filter (fun h => negb (h_student_id h =? sid)) (history d)).

(** [DELETE FROM students WHERE id = $1 RETURNING *] *)
Definition delete_student (sid : nat) (d : db) : option student * db :=
  (find_student sid d,
   set_students d (filter (fun s => negb (s_id s =? sid)) (students d))).

(** [INSERT INTO students ... RETURNING *]; [id] is a serial column. *)
Definition insert_student (mk : nat -> student) (d : db) : student * db :=
  let s := mk (next_student_id d) in
  (s, mkDB (students d ++ [s]) (lockers d) (seat_assignments d) (history d)
           (seats d) (schedules d) (S (next_student_id d)) (next_history_id d)).

(** The history snapshot the three write routes insert or overwrite:
    the returned student row, plus [seatIdNum], [firstShiftId],
    [branchIdNum] and [lockerIdNum]. *)
Definition snapshot (s : student) (seat : option nat) (shift : option nat)
  (branch : nat) (lck : option nat) (hid : nat) : history_row :=
  mkHistory hid (s_id s) (s_membership_start s) (s_membership_end s)
    (s_total_fee s) (s_amount_paid s) (s_due_amount s) (s_cash s) (s_online s)
    (s_discount s) seat shift branch lck.

(** [if (!firstShiftId) firstShiftId = shiftId] over the loop. *)
Definition first_shift (l : list nat) : option nat :=
  find (fun x => negb (x =? 0)) l.

(** ** Request bodies

    Numeric fields are JSON numbers or absent ([None]); ids are positive
    integers or absent. *)

Record student_req := mkReq {
  r_name : string;
  r_phone : string;
  r_address : string;
  r_branch_id : option nat;
  r_membership_start : string;
  r_membership_end : string;
  r_total_fee : option Q;
  r_amount_paid : option Q;
  r_discount : option Q;
  r_cash : option Q;
  r_online : option Q;
  r_security_money : option Q;
  r_shift_ids : list nat;
  r_seat_id : option nat;
  r_locker_id : option nat }.

(** [parseFloat(x || 0)] *)
Definition num_or0 (x : option Q) : Q :=
  match x with Some q => q | None => 0%Q end.

Definition is_some {A} (x : option A) : bool :=
  match x with Some _ => true | None => false end.

(** [x < 0] *)
Definition Qneg (x : Q) : bool := negb (Qle_bool 0 x).

Definition blank (s : string) : bool := String.eqb s "".

Definition branch_of (r : student_req) : nat :=
  match r_branch_id r with Some b => b | None => 0 end.

(** ** Enroll: [router.post('/')] *)

Definition enroll_body (r : student_req) : M unit :=
  if blank (r_name r) || negb (is_some (r_branch_id r))
     || blank (r_membership_start r) || blank (r_membership_end r)
  then fail ValidationError else
  let feeValue := num_or0 (r_total_fee r) in
  let paidValue := num_or0 (r_amount_paid r) in
  let discountValue := num_or0 (r_discount r) in
  if Qneg feeValue then fail ValidationError else
  if Qneg paidValue then fail ValidationError else
  if Qneg discountValue then fail ValidationError else
  let cashValue := num_or0 (r_cash r) in
  let onlineValue := num_or0 (r_online r) in
  let securityMoneyValue := num_or0 (r_security_money r) in
  if Qneg cashValue then fail ValidationError else
  if Qneg onlineValue then fail ValidationError else
  if Qneg securityMoneyValue then fail ValidationError else
  let dueAmount := (feeValue - discountValue - paidValue)%Q in
  (match r_seat_id r, r_shift_ids r with
   | Some seat, _ :: _ =>
       ok <- select (fun d => existsb (Nat.eqb seat) (seats d)) ;;
       if negb ok then fail NotFound else
       for_ (r_shift_ids r) (fun sh =>
         ok <- select (fun d => existsb (Nat.eqb sh) (schedules d)) ;;
         if negb ok then fail NotFound else ret tt) ;;
       for_ (r_shift_ids r) (fun sh =>
         taken <- select (seat_taken seat sh) ;;
         if taken then fail Conflict else ret tt)
   | _, _ => ret tt
   end) ;;
  (match r_locker_id r with
   | Some lid =>
       lk <- select (find_locker lid) ;;
       match lk with
       | None => fail NotFound
       | Some l => if l_is_assigned l then fail Conflict else ret tt
       end
   | None => ret tt
   end) ;;
  st <- query (insert_student (fun id =>
          mkStudent id (r_name r) (r_phone r) (branch_of r) (r_locker_id r)
            (r_membership_start r) (r_membership_end r)
            feeValue paidValue dueAmount (Some cashValue) (Some onlineValue)
            discountValue true)) ;;
  (match r_locker_id r with
   | Some lid => exec (assign_locker (s_id st) lid)
   | None => ret tt
   end) ;;
  for_ (r_shift_ids r) (fun sh =>
    exec (insert_assignment (mkAssignment (r_seat_id r) sh (s_id st)))) ;;
  exec (insert_history (snapshot st (r_seat_id r) (first_shift (r_shift_ids r))
                          (branch_of r) (r_locker_id r))).

Definition enroll (b : option nat) (r : student_req) (d : db) : response * db :=
  transaction (enroll_body r) b d.

(** ** Edit: [router.put('/:id')] *)

(** The [UPDATE students SET ...] of Edit: [cash] and [online] are written
    as received, without [parseFloat]. *)
Definition edit_row (r : student_req) (fee paid due disc : Q) (s : student) : student :=
  mkStudent (s_id s) (r_name r) (r_phone r) (branch_of r) (r_locker_id r)
    (r_membership_start r) (r_membership_end r) fee paid due
    (r_cash r) (r_online r) disc (s_is_active s).

Definition edit_body (id : nat) (r : student_req) : M unit :=
  if blank (r_name r) || blank (r_phone r) || blank (r_address r)
     || negb (is_some (r_branch_id r))
     || blank (r_membership_start r) || blank (r_membership_end r)
  then fail ValidationError else
  let feeValue := num_or0 (r_total_fee r) in
  let paidValue := num_or0 (r_amount_paid r) in
  let discountValue := num_or0 (r_discount r) in
  let dueAmountValue := (feeValue - discountValue - paidValue)%Q in
  (match r_locker_id r with
   | Some lid =>
       lk <- select (find_locker lid) ;;
       match lk with
       | None => fail NotFound
       | Some l =>
           if l_is_assigned l && negb (opt_eqb (l_student_id l) (Some id))
           then fail Conflict else ret tt
       end
   | None => ret tt
   end) ;;
  prev <- select (find_student id) ;;
  match prev with
  | None => fail Internal (* [previouslockerCheck.rows[0].locker_id] throws *)
  | Some p =>
      (match s_locker_id p with
       | Some pl => exec (free_locker pl)
       | None => ret tt
       end) ;;
      upd <- query (update_student id
                      (edit_row r feeValue paidValue dueAmountValue discountValue)) ;;
      match upd with
      | None => fail NotFound
      | Some st =>
          (match r_locker_id r with
           | Some lid => exec (assign_locker id lid)
           | None => ret tt
           end) ;;
          exec (delete_assignments id) ;;
          for_ (r_shift_ids r) (fun sh =>
            exec (insert_assignment (mkAssignment (r_seat_id r) sh id))) ;;
          exec (overwrite_latest_history id (fun h =>
            snapshot st (r_seat_id r) (first_shift (r_shift_ids r))
              (s_branch_id st) (r_locker_id r) (h_id h)))
      end
  end.

Definition edit (b : option nat) (id : nat) (r : student_req) (d : db) : response * db :=
  transaction (edit_body id r) b d.

(** ** Renew: [router.post('/:id/renew')] *)

Definition renew_row (r : student_req) (fee paid due cash online disc : Q)
  (s : student) : student :=
  mkStudent (s_id s) (r_name r) (r_phone r) (branch_of r) (r_locker_id r)
    (r_membership_start r) (r_membership_end r) fee paid due
    (Some cash) (Some online) disc (s_is_active s).

Definition renew_body (id : nat) (r : student_req) : M unit :=
  if blank (r_membership_start r) || blank (r_membership_end r)
     || blank (r_name r) || blank (r_phone r) || negb (is_some (r_branch_id r))
  then fail ValidationError else
  let feeValue := num_or0 (r_total_fee r) in
  let cashValue := num_or0 (r_cash r) in
  let onlineValue := num_or0 (r_online r) in
  let discountValue := num_or0 (r_discount r) in
  let amount_paid := (cashValue + onlineValue)%Q in
  let due_amount := (feeValue - discountValue - amount_paid)%Q in
  (match r_seat_id r, r_shift_ids r with
   | Some seat, _ :: _ =>
       for_ (r_shift_ids r) (fun sh =>
         taken <- select (seat_taken_by_other seat sh id) ;;
         if taken then fail Conflict else ret tt)
   | _, _ => ret tt
   end) ;;
  (match r_locker_id r with
   | Some lid =>
       lk <- select (find_locker lid) ;;
       match lk with
       | None => fail NotFound
       | Some l =>
           if l_is_assigned l && negb (opt_eqb (l_student_id l) (Some id))
           then fail Conflict else ret tt
       end
   | None => ret tt
   end) ;;
  exec (free_lockers_of id) ;;
  upd <- query (update_student id
                  (renew_row r feeValue amount_paid due_amount cashValue onlineValue
                     discountValue)) ;;
  match upd with
  | None => fail NotFound
  | Some st =>
      (match r_locker_id r with
       | Some lid => exec (assign_locker id lid)
       | None => ret tt
       end) ;;
      exec (delete_assignments id) ;;
      for_ (r_shift_ids r) (fun sh =>
        exec (insert_assignment (mkAssignment (r_seat_id r) sh id))) ;;
      exec (insert_history (snapshot st (r_seat_id r) (first_shift (r_shift_ids r))
                              (branch_of r) (r_locker_id r)))
  end.

Definition renew (b : option nat) (id : nat) (r : student_req) (d : db) : response * db :=
  transaction (renew_body id r) b d.

(** ** Status update: [router.put('/:id/status')] *)

Definition set_active (act : bool) (s : student) : student :=
  mkStudent (s_id s) (s_name s) (s_phone s) (s_branch_id s) (s_locker_id s)
    (s_membership_start s) (s_membership_end s) (s_total_fee s)
    (s_amount_paid s) (s_due_amount s) (s_cash s) (s_online s) (s_discount s) act.

Definition clear_locker_ref (s : student) : student :=
  mkStudent (s_id s) (s_name s) (s_phone s) (s_branch_id s) None
    (s_membership_start s) (s_membership_end s) (s_total_fee s)
    (s_amount_paid s) (s_due_amount s) (s_cash s) (s_online s) (s_discount s)
    (s_is_active s).

Definition status_body (id : nat) (is_active : bool) : M unit :=
  upd <- query (update_student id (set_active is_active)) ;;
  match upd with
  | None => fail NotFound
  | Some _ =>
      if negb is_active then
        exec (delete_assignments id) ;;
        exec (fun d => snd (update_student id clear_locker_ref d)) ;;
        exec (free_lockers_of id)
      else ret tt
  end.

Definition set_status (b : option nat) (id : nat) (is_active : bool) (d : db)
  : response * db :=
  transaction (status_body id is_active) b d.

(** ** Delete: [router.delete('/:id')], four [pool.query] calls *)

Definition delete_body (id : nat) : M unit :=
  exec (delete_assignments id) ;;
  exec (free_lockers_of id) ;;
  exec (delete_history id) ;;
  del <- query (delete_student id) ;;
  match del with
  | None => fail NotFound
  | Some _ => ret tt
  end.

Definition delete (b : option nat) (id : nat) (d : db) : response * db :=
  autocommit (delete_body id) b d.

(** ** ApplyPayment: [router.put('/:historyId')] of collections.js *)

Inductive payment_method := PCash | POnline | POther.

(** [SET cash = $1, online = $2, amount_paid = $3, due_amount = $4] *)
Definition student_pay_cols (cash online paid due : Q) (s : student) : student :=
  mkStudent (s_id s) (s_name s) (s_phone s) (s_branch_id s) (s_locker_id s)
    (s_membership_start s) (s_membership_end s) (s_total_fee s)
    paid due (Some cash) (Some online) (s_discount s) (s_is_active s).

Definition history_pay_cols (cash online paid due : Q) (h : history_row) : history_row :=
  mkHistory (h_id h) (h_student_id h) (h_membership_start h) (h_membership_end h)
    (h_total_fee h) paid due (Some cash) (Some online)
    (h_discount h) (h_seat_id h) (h_shift_id h) (h_branch_id h) (h_locker_id h).

Definition cash_part (m : payment_method) (amt : Q) : Q :=
  match m with PCash => amt | _ => 0%Q end.
Definition online_part (m : payment_method) (amt : Q) : Q :=
  match m with POnline => amt | _ => 0%Q end.

Definition update_history (hid : nat) (f : history_row -> history_row) (d : db) : db :=
  set_history d (map (fun h => if h_id h =? hid then f h else h) (history d)).

Definition apply_payment_body (historyId : nat) (payment_amount : Q)
  (payment_method : payment_method) : M unit :=
  if Qle_bool payment_amount 0 then fail ValidationError else
  match payment_method with POther => fail ValidationError | _ =>
  hist <- select (find_history historyId) ;;
  match hist with
  | None => fail NotFound
  | Some h =>
      let history_due_amount := h_due_amount h in
      if negb (Qle_bool payment_amount (history_due_amount + (1 # 100)))
      then fail Conflict else
      stu <- select (find_student (h_student_id h)) ;;
      match stu with
      | None => fail NotFound
      | Some s =>
          let new_student_cash :=
            (col (s_cash s) + cash_part payment_method payment_amount)%Q in
          let new_student_online :=
            (col (s_online s) + online_part payment_method payment_amount)%Q in
          let new_student_amount_paid := (s_amount_paid s + payment_amount)%Q in
          let new_student_due_amount := (s_due_amount s - payment_amount)%Q in
          exec (fun d => snd (update_student (h_student_id h)
                  (student_pay_cols new_student_cash new_student_online
                     new_student_amount_paid new_student_due_amount) d)) ;;
          let new_history_cash :=
            (col (h_cash h) + cash_part payment_method payment_amount)%Q in
          let new_history_online :=
            (col (h_online h) + online_part payment_method payment_amount)%Q in
          let new_history_amount_paid := (h_amount_paid h + payment_amount)%Q in
          let new_history_due_amount := (history_due_amount - payment_amount)%Q in
          exec (update_history historyId
                  (history_pay_cols new_history_cash new_history_online
                     new_history_amount_paid new_history_due_amount))
      end
  end
  end.

Definition apply_payment (b : option nat) (historyId : nat) (amt : Q)
  (m : payment_method) (d : db) : response * db :=
  transaction (apply_payment_body historyId amt m) b d.

(** * Properties used to state the claims *)

(** [wp m Q d]: whatever the statement budget, if [m] finishes from [d] it
    returns a value and a state satisfying [Q]. *)
Definition wp {A} (m : M A) (Q : A -> db -> Prop) (d : db) : Prop :=
  forall b, match m b d with
            | Done a _ d' => Q a d'
            | Throw _ _ => True
            end.

(** History rows of one member. *)
Definition member_history (sid : nat) (hs : list history_row) : list history_row :=
  filter (fun h => h_student_id h =? sid) hs.

(** What Edit does to [student_membership_history]: the latest row of the
    member is rewritten, keeping its [id] and [student_id]. *)
Definition edit_history_post (id : nat) (d0 : db) (_ : unit) (d' : db) : Prop :=
  exists f, history d' =
    map (fun h => if opt_eqb (Some (h_id h)) (latest_history_id id (history d0))
                  then f h else h) (history d0)
    /\ forall h, h_student_id (f h) = id /\ h_id (f h) = h_id h.

(** What Renew does to it: one row of the member is appended. *)
Definition renew_history_post (id : nat) (d0 : db) (_ : unit) (d' : db) : Prop :=
  exists row, history d' = history d0 ++ [row] /\ h_student_id row = id.

(** The state after a successful payment of [amt] through [m] on the
    history row [h], owned by the student row [s]. *)
Definition paid_state (hid : nat) (amt : Q) (m : payment_method)
  (h : history_row) (s : student) (d : db) : db :=
  update_history hid
    (history_pay_cols (col (h_cash h) + cash_part m amt)
       (col (h_online h) + online_part m amt)
       (h_amount_paid h + amt) (h_due_amount h - amt))
    (snd (update_student (h_student_id h)
            (student_pay_cols (col (s_cash s) + cash_part m amt)
               (col (s_online s) + online_part m amt)
               (s_amount_paid s + amt) (s_due_amount s - amt)) d)).

Definition payment_post (hid : nat) (amt : Q) (m : payment_method) (d0 : db)
  (_ : unit) (d' : db) : Prop :=
  exists h s,
    find_history hid d0 = Some h /\
    find_student (h_student_id h) d0 = Some s /\
    Qle_bool amt 0 = false /\ m <> POther /\
    Qle_bool amt (h_due_amount h + (1 # 100)) = true /\
    d' = paid_state hid amt m h s d0.

(** The locker invariant: a locker is assigned iff exactly one student row
    references it, and when one does, the locker points back to it. *)
Definition locker_ok (d : db) (l : locker) : bool :=
  let refs := filter (fun s => opt_eqb (s_locker_id s) (Some (l_id l))) (students d) in
  Bool.eqb (l_is_assigned l) (List.length refs =? 1) &&
  match refs with
  | [s] => opt_eqb (l_student_id l) (Some (s_id s))
  | _ => true
  end.

Definition locker_inv (d : db) : bool := forallb (locker_ok d) (lockers d).

(** The money relation Renew writes on the member row and on the history
    row it appends: [due = fee - discount - (cash + online)]. *)
Definition h_balanced (h : history_row) : Prop :=
  (h_due_amount h == h_total_fee h - h_discount h - (col (h_cash h) + col (h_online h)))%Q.

Definition s_balanced (s : student) : Prop :=
  (s_due_amount s == s_total_fee s - s_discount s - (col (s_cash s) + col (s_online s)))%Q.

(** * Session guards and the auth router ([./routes/auth.js])

    [req.session.user] is [None] when absent; [permissions] is [None] when
    the session holds no array. Strings are ASCII. A guard either calls
    [next()] or answers with a status code. *)

Record session_user := mkUser {
  u_id : nat;
  u_username : string;
  u_role : string;
  u_permissions : option (list string) }.

Inductive reply := Next | Status (code : nat).

(** [req.session.user.permissions || []] *)
Definition perms_of (u : session_user) : list string :=
  match u_permissions u with Some l => l | None => [] end.

(** [userPermissions.includes(p)] *)
Definition includes (l : list string) (p : string) : bool := existsb (String.eqb p) l.

(** [String.prototype.toUpperCase] on ASCII. *)
Definition ascii_upper (c : ascii) : ascii :=
  let n := nat_of_ascii c in
  if (97 <=? n) && (n <=? 122) then ascii_of_nat (n - 32) else c.

Fixpoint to_upper (s : string) : string :=
  match s with
  | EmptyString => EmptyString
  | String c t => String (ascii_upper c) (to_upper t)
  end.

Definition checkPermission (permission : string) (sess : option session_user) : reply :=
  match sess with
  | None => Status 401
  | Some u =>
      if String.eqb (u_role u) "admin" then Next else
      if negb (includes (perms_of u) permission) then Status 403 else Next
  end.

(** [checkPermissions(permissions = [], logic = 'OR')]; the callers pass
    the list, and ['OR'] when they give no [logic]. *)
Definition checkPermissions (permissions : list string) (logic : string)
  (sess : option session_user) : reply :=
  match sess with
  | None => Status 401
  | Some u =>
      if String.eqb (u_role u) "admin" then Next else
      let userPermissions := perms_of u in
      let hasPermission :=
        if String.eqb (to_upper logic) "AND"
        then forallb (includes userPermissions) permissions
        else existsb (includes userPermissions) permissions in
      if negb hasPermission then Status 403 else Next
  end.

Definition checkAdmin (sess : option session_user) : reply :=
  match sess with
  | None => Status 401
  | Some u => if negb (String.eqb (u_role u) "admin") then Status 403 else Next
  end.

Definition checkAdminOrStaff (sess : option session_user) : reply :=
  match sess with
  | None => Status 401
  | Some u =>
      if String.eqb (u_role u) "admin" || String.eqb (u_role u) "staff"
      then Next else Status 403
  end.

(** [req.session && req.session.user && req.session.user.id] *)
Definition authenticateUser (sess : option session_user) : reply :=
  match sess with
  | Some u => if negb (u_id u =? 0) then Next else Status 401
  | None => Status 401
  end.

(** A row of [users]. *)
Record user_row := mkUserRow {
  du_id : nat;
  du_username : string;
  du_password : string;
  du_role : string;
  du_permissions : option (list string) }.

(** The session object built from a [users] row. *)
Definition session_of (du : user_row) : session_user :=
  mkUser (du_id du) (du_username du) (du_role du)
    (Some (match du_permissions du with Some l => l | None => [] end)).

(** [router.post('/login')]: [SELECT ... WHERE username = $1], first row.
    Absent fields are the empty string. *)
Definition login (users : list user_row) (username password : string)
  (sess : option session_user) : reply * option session_user :=
  if blank username || blank password then (Status 400, sess) else
  match find (fun du => String.eqb (du_username du) username) users with
  | None => (Status 401, sess)
  | Some user =>
      let isPasswordValid := String.eqb password (du_password user) in
      if negb isPasswordValid then (Status 401, sess)
      else (Status 200, Some (session_of user))
  end.

(** [router.get('/status')]: [isAuthenticated] and the reported user. *)
Definition auth_status (sess : option session_user) : bool * option session_user :=
  match sess with
  | Some u => (true, Some (mkUser (u_id u) (u_username u) (u_role u) (Some (perms_of u))))
  | None => (false, None)
  end.

(** [router.get('/refresh', authenticateUser, ...)]: [SELECT ... WHERE id = $1]. *)
Definition refresh (users : list user_row) (sess : option session_user)
  : reply * option session_user :=
  match authenticateUser sess, sess with
  | Next, Some u =>
      match find (fun du => du_id du =? u_id u) users with
      | None => (Status 404, sess)
      | Some user => (Status 200, Some (session_of user))
      end
  | Next, None => (Status 401, sess)
  | r, _ => (r, sess)
  end.

(** Sample [users] rows: an admin without a permission array and a staff
    member with two permissions. *)
Definition user_admin : user_row := mkUserRow 1 "admin" "admin123" "admin" None.
Definition user_ravi : user_row :=
  mkUserRow 2 "ravi" "ravi123" "staff"
    (Some ["view_collections"%string; "manage_library_students"%string]).
Definition users_sample : list user_row := [user_admin; user_ravi].

(** * Sample states *)

(** Two lockers, one seat, two shifts, no students yet. *)
Definition db_empty : db :=
  mkDB [] [mkLocker 1 false None; mkLocker 2 false None] [] [] [1] [1; 2] 1 1.

(** The round trip of the specification: fee 1000, discount 0, cash 400,
    online 0, seat 1 on shift 1, locker 1; the form's [amount_paid] is sent. *)
Definition req_asha : student_req :=
  mkReq "Asha" "9876500001" "Ward 4" (Some 1) "2026-01-01" "2026-01-31"
    (Some 1000%Q) (Some 400%Q) (Some 0%Q) (Some 400%Q) (Some 0%Q) None
    [1] (Some 1) (Some 1).

(** The same request without [amount_paid]. *)
Definition req_no_paid : student_req :=
  mkReq "Asha" "9876500001" "Ward 4" (Some 1) "2026-01-01" "2026-01-31"
    (Some 1000%Q) None (Some 0%Q) (Some 400%Q) (Some 0%Q) None
    [1] (Some 1) (Some 1).

(** A second member on seat 1, shift 2, without a locker. *)
Definition req_bala : student_req :=
  mkReq "Bala" "9876500002" "Ward 7" (Some 1) "2026-01-01" "2026-01-31"
    (Some 800%Q) (Some 800%Q) (Some 0%Q) (Some 800%Q) (Some 0%Q) None
    [2] (Some 1) None.

(** Bala asks for shift 1 of seat 1, held by Asha. *)
Definition req_bala_shift1 : student_req :=
  mkReq "Bala" "9876500002" "Ward 7" (Some 1) "2026-01-01" "2026-01-31"
    (Some 800%Q) (Some 800%Q) (Some 0%Q) (Some 800%Q) (Some 0%Q) None
    [1] (Some 1) None.

(** A negative fee. *)
Definition req_negative_fee : student_req :=
  mkReq "Asha" "9876500001" "Ward 4" (Some 1) "2026-01-01" "2026-01-31"
    (Some (-100)%Q) None (Some 0%Q) (Some 0%Q) (Some 0%Q) None
    [1] (Some 1) (Some 1).

(** Renewal of Asha for February, fee 500 paid in cash. *)
Definition req_asha_feb : student_req :=
  mkReq "Asha" "9876500001" "Ward 4" (Some 1) "2026-02-01" "2026-02-28"
    (Some 500%Q) None (Some 0%Q) (Some 500%Q) (Some 0%Q) None
    [1] (Some 1) (Some 1).

Definition db_asha : db := snd (enroll None req_asha db_empty).
Definition db_two : db := snd (enroll None req_bala db_asha).
(** Asha's first period fully paid: due 0 on the head and on history row 1. *)
Definition db_asha_paid : db := snd (apply_payment None 1 600%Q POnline db_asha).
(** Asha renewed: the head is paid up, history row 1 still owes 600. *)
Definition db_asha_renewed : db := snd (renew None 1 req_asha_feb db_asha).
(** Asha deactivated. *)
Definition db_asha_inactive : db := snd (set_status None 1 false db_asha).
(** Asha's 600 paid in two parts, 300 in cash and then 300 online. *)
Definition db_asha_cash300 : db := snd (apply_payment None 1 300%Q PCash db_asha).
Definition db_asha_cash300_online300 : db :=
  snd (apply_payment None 1 300%Q POnline db_asha_cash300).
(** Asha's record edited to move her from locker 1 to locker 2. *)
Definition req_asha_locker2 : student_req :=
  mkReq "Asha" "9876500001" "Ward 4" (Some 1) "2026-01-01" "2026-01-31"
    (Some 1000%Q) (Some 400%Q) (Some 0%Q) (Some 400%Q) (Some 0%Q) None
    [1] (Some 1) (Some 2).
Definition db_asha_locker2 : db := snd (edit None 1 req_asha_locker2 db_asha).
(** A request with no seat and no locker. *)
Definition req_walkin : student_req :=
  mkReq "Ravi" "9876500003" "Ward 2" (Some 1) "2026-03-01" "2026-03-31"
    (Some 700%Q) None (Some 0%Q) (Some 700%Q) (Some 0%Q) None
    [] None None.
(** Asha's head row and first history row in [db_asha]. *)
Definition asha_head : student :=
  mkStudent 1 "Asha" "9876500001" 1 (Some 1) "2026-01-01" "2026-01-31"
    1000%Q 400%Q 600%Q (Some 400%Q) (Some 0%Q) 0%Q true.
Definition asha_history1 : history_row :=
  mkHistory 1 1 "2026-01-01" "2026-01-31" 1000%Q 400%Q 600%Q (Some 400%Q) (Some 0%Q) 0%Q
    (Some 1) (Some 1) 1 (Some 1).

(** * Reasoning about the statement monad *)

Lemma wp_ret {A} (a : A) (Q : A -> db -> Prop) d : Q a d -> wp (ret a) Q d.
Proof. intros H b; exact H. Qed.

Lemma wp_fail {A} e (Q : A -> db -> Prop) d : wp (fail e) Q d.
Proof. intros b; exact I. Qed.

Lemma wp_query {A} (f : db -> A * db) (Q : A -> db -> Prop) d :
  Q (fst (f d)) (snd (f d)) -> wp (query f) Q d.
Proof.
  intros H b; unfold query.
  destruct b as [[|n]|]; [exact I| |]; destruct (f d); exact H.
Qed.

Lemma wp_bind {A B} (m : M A) (k : A -> M B) (Q : B -> db -> Prop) d :
  wp m (fun a d' => wp (k a) Q d') d -> wp (bind m k) Q d.
Proof.
  intros H b; unfold bind; specialize (H b).
  destruct (m b d) as [a b' d'|e d']; [exact (H b')|exact I].
Qed.

Lemma wp_for {A} (l : list A) (body : A -> M unit) (Inv Q : unit -> db -> Prop) d :
  Inv tt d ->
  (forall x d', Inv tt d' -> wp (body x) Inv d') ->
  (forall d', Inv tt d' -> Q tt d') ->
  wp (for_ l body) Q d.
Proof.
  revert d; induction l as [|x t IH]; intros d HI Hbody HQ; simpl.
  - apply wp_ret, HQ, HI.
  - apply wp_bind. intros b. pose proof (Hbody x d HI b) as Hx.
    destruct (body x b d) as [[] b' d'|e d']; [|exact I].
    apply IH; assumption.
Qed.

Lemma transaction_ok (m : M unit) (Q : unit -> db -> Prop) b d d' :
  wp m Q d -> transaction m b d = (Ok, d') -> Q tt d'.
Proof.
  intros H Ht; unfold transaction in Ht; specialize (H b).
  destruct (m b d) as [[] b' d''|e d'']; inversion Ht; subst; exact H.
Qed.

(** Symbolic execution of a route body, up to its loops. *)
Ltac wp_step :=
  lazymatch goal with
  | |- wp (bind _ _) _ _ => apply wp_bind
  | |- wp (query _) _ _ => apply wp_query
  | |- wp (ret _) _ _ => apply wp_ret
  | |- wp (fail _) _ _ => apply wp_fail
  | |- wp (if ?c then _ else _) _ _ => destruct c eqn:?
  | |- wp (match ?x with _ => _ end) _ _ => destruct x eqn:?
  end; cbn [fst snd]; cbv beta.

Ltac wp_run := repeat wp_step.

Lemma transaction_cases (m : M unit) (Q : unit -> db -> Prop) b d :
  wp m Q d ->
  (exists e, transaction m b d = (Error e, d)) \/
  (exists d', transaction m b d = (Ok, d') /\ Q tt d').
Proof.
  intros H; unfold transaction; specialize (H b).
  destruct (m b d) as [[] b' d'|e d']; eauto.
Qed.

(** ** Row lookups after an update *)

Lemma find_update {T} (key : T -> nat) (k : nat) (f : T -> T) (l : list T) :
  (forall x, key (f x) = key x) ->
  find (fun x => key x =? k) (map (fun x => if key x =? k then f x else x) l)
  = option_map f (find (fun x => key x =? k) l).
Proof.
  intros Hf; induction l as [|x t IH]; simpl; [reflexivity|].
  destruct (key x =? k) eqn:E; simpl.
  - rewrite Hf, E; reflexivity.
  - rewrite E; exact IH.
Qed.

Lemma find_key {T} (key : T -> nat) k l (x : T) :
  find (fun x => key x =? k) l = Some x -> key x = k.
Proof. intros H; apply find_some in H; apply Nat.eqb_eq, H. Qed.

Lemma update_student_ret id f d s :
  (forall x, s_id (f x) = s_id x) ->
  fst (update_student id f d) = Some s -> s_id s = id.
Proof.
  intros Hf H; unfold update_student, find_student in H; cbn in H.
  destruct (find (fun s => s_id s =? id) (students d)) as [x|] eqn:E; [|discriminate].
  inversion H; subst. rewrite Hf. exact (find_key s_id id _ x E).
Qed.

(** ** History rows under Edit and Renew *)

Ltac wp_history_loops H0 :=
  wp_run;
  try (apply wp_for with (Inv := fun _ d' => history d' = H0);
       [ cbn; congruence
       | let x := fresh "x" in let d := fresh "d" in let Hd := fresh "Hd" in
         intros x d Hd; wp_run; cbn; congruence
       | let d := fresh "d" in let Hd := fresh "Hd" in
         intros d Hd; wp_history_loops H0 ]).

Lemma edit_body_history id r d0 : wp (edit_body id r) (edit_history_post id d0) d0.
Proof.
  unfold edit_body, select, exec. wp_history_loops (history d0).
  all: unfold edit_history_post; cbn;
    repeat match goal with H : history ?x = _ |- context [history ?x] => rewrite H; clear H end;
    eexists; split; [reflexivity|];
    intros h; cbn; split; [|reflexivity];
    eapply update_student_ret; [|eassumption]; intros; reflexivity.
Qed.

Lemma renew_body_history id r d0 : wp (renew_body id r) (renew_history_post id d0) d0.
Proof.
  unfold renew_body, select, exec. wp_history_loops (history d0).
  all: unfold renew_history_post; cbn;
    repeat match goal with H : history ?x = _ |- context [history ?x] => rewrite H; clear H end;
    eexists; split; [reflexivity|]; cbn;
    eapply update_student_ret; [|eassumption]; intros; reflexivity.
Qed.

Lemma latest_history_id_in sid hs t :
  latest_history_id sid hs = Some t ->
  exists h, In h hs /\ h_id h = t /\ h_student_id h = sid.
Proof.
  revert t; induction hs as [|h hs IH]; intros t H; simpl in H; [discriminate|].
  destruct (h_student_id h =? sid) eqn:E.
  - apply Nat.eqb_eq in E.
    destruct (latest_history_id sid hs) as [m|] eqn:Em.
    + destruct (Nat.max_spec (h_id h) m) as [[_ Hmax]|[_ Hmax]];
        rewrite Hmax in H; inversion H; subst.
      * destruct (IH t eq_refl) as (h' & Hin & Hid & Hs).
        exists h'; simpl; auto.
      * exists h; simpl; auto.
    + inversion H; subst; exists h; simpl; auto.
  - destruct (IH t H) as (h' & Hin & Hid & Hs); exists h'; simpl; auto.
Qed.

Lemma nodup_key {T} (key : T -> nat) (l : list T) x y :
  NoDup (map key l) -> In x l -> In y l -> key x = key y -> x = y.
Proof.
  induction l as [|z l IH]; intros Hnd Hx Hy Hk; [destruct Hx|].
  inversion Hnd as [|? ? Hnot Hnd']; subst.
  destruct Hx as [<-|Hx], Hy as [<-|Hy]; auto.
  - exfalso; apply Hnot; rewrite Hk; apply in_map, Hy.
  - exfalso; apply Hnot; rewrite <- Hk; apply in_map, Hx.
Qed.

Lemma filter_map_same {T} (P : T -> bool) (g : T -> T) (l : list T) :
  (forall x, In x l -> P (g x) = P x) ->
  List.length (filter P (map g l)) = List.length (filter P l).
Proof.
  induction l as [|x t IH]; intros H; simpl; [reflexivity|].
  rewrite H by (left; reflexivity).
  destruct (P x); simpl; rewrite IH; auto; intros y Hy; apply H; right; exact Hy.
Qed.

(** ** ApplyPayment *)

Lemma apply_payment_body_spec hid amt m d0 :
  wp (apply_payment_body hid amt m) (payment_post hid amt m d0) d0.
Proof.
  unfold apply_payment_body, select, exec. wp_run.
  all: exists h, s; repeat split; try assumption; try discriminate;
    apply negb_false_iff; assumption.
Qed.

Lemma apply_payment_cases b hid amt m d :
  (exists e, apply_payment b hid amt m d = (Error e, d)) \/
  (exists d', apply_payment b hid amt m d = (Ok, d') /\ payment_post hid amt m d tt d').
Proof. apply transaction_cases, apply_payment_body_spec. Qed.

Lemma paid_state_rows hid amt m h s d :
  find_history hid d = Some h ->
  find_student (h_student_id h) d = Some s ->
  find_history hid (paid_state hid amt m h s d) =
    Some (history_pay_cols (col (h_cash h) + cash_part m amt)
            (col (h_online h) + online_part m amt)
            (h_amount_paid h + amt) (h_due_amount h - amt) h) /\
  find_student (h_student_id h) (paid_state hid amt m h s d) =
    Some (student_pay_cols (col (s_cash s) + cash_part m amt)
            (col (s_online s) + online_part m amt)
            (s_amount_paid s + amt) (s_due_amount s - amt) s).
Proof.
  intros Hh Hs; unfold paid_state, find_history, find_student, update_history,
    update_student in *; cbn.
  split.
  - rewrite (find_update h_id hid) by reflexivity. rewrite Hh; reflexivity.
  - rewrite (find_update s_id (h_student_id h)) by reflexivity.
    rewrite Hs; reflexivity.
Qed.

(** ** Status update *)

Lemma status_body_true id d0 :
  wp (status_body id true)
     (fun _ d' => d' = set_students d0
        (map (fun s => if s_id s =? id then set_active true s else s) (students d0))) d0.
Proof.
  unfold status_body, select, exec. wp_run; [discriminate|reflexivity].
Qed.

(** * Claims *)

(** ** C1 *)

(** C1 (code_bug): Enroll stores [due = fee - discount - amount_paid], with
    [amount_paid] taken from the request, not [cash + online]. On the round
    trip of the specification sent without [amount_paid] (fee 1000,
    discount 0, cash 400, online 0) it succeeds and stores due 1000, while
    fee - discount - (cash + online) is 600. Edit computes due the same way;
    Renew computes it from [cash + online]. *)
Theorem C1_enroll_due_not_from_channels :
  fst (enroll None req_no_paid db_empty) = Ok /\
  exists s, find_student 1 (snd (enroll None req_no_paid db_empty)) = Some s /\
    s_due_amount s == 1000 /\
    ~ (s_due_amount s == s_total_fee s - s_discount s - (col (s_cash s) + col (s_online s))).
Proof.
  split; [reflexivity|].
  eexists; split; [vm_compute; reflexivity|].
  split; [reflexivity|].
  vm_compute; discriminate.
Qed.

(** ** C2 *)

(** C2 (corrected, counterexample): on Asha's fully paid period (due 0), a
    payment of 0.02 exceeds due + 0.01, but with a payment method other than
    cash or online the route answers with the input validation error, not
    with Conflict. *)
Lemma C2_overpay_other_method_validation :
  exists h, find_history 1 db_asha_paid = Some h /\
    h_due_amount h == 0 /\ (h_due_amount h + (1 # 100) < 2 # 100)%Q /\
    apply_payment None 1 (2 # 100) POther db_asha_paid
      = (Error ValidationError, db_asha_paid).
Proof.
  eexists; split; [vm_compute; reflexivity|].
  split; [reflexivity|]. split; [reflexivity|].
  vm_compute; reflexivity.
Qed.

(** C2 (corrected): a payment above the targeted history row's due + 0.01
    never changes the state, whatever the statement budget; with no storage
    failure it is refused with Conflict when the amount is positive and the
    method is cash or online, and with the input validation error
    otherwise (validation runs first). *)
Theorem C2_overpay_rejected (b : option nat) (hid : nat) (amt : Q)
  (m : payment_method) (d : db) (h : history_row)
  (Hh : find_history hid d = Some h)
  (Hover : (h_due_amount h + (1 # 100) < amt)%Q) :
  snd (apply_payment b hid amt m d) = d /\
  apply_payment None hid amt m d =
    (Error (if Qle_bool amt 0 then ValidationError
            else match m with POther => ValidationError | _ => Conflict end), d).
Proof.
  split.
  - destruct (apply_payment_cases b hid amt m d) as [[e ->]|(d' & -> & Hpost)];
      [reflexivity|].
    exfalso. destruct Hpost as (h' & s & Hh' & _ & _ & _ & Hle & _).
    rewrite Hh in Hh'; inversion Hh'; subst h'.
    apply Qle_bool_iff in Hle. exact (Qlt_not_le _ _ Hover Hle).
  - unfold apply_payment, transaction, apply_payment_body, bind, select, query,
      fail, ret.
    destruct (Qle_bool amt 0); [reflexivity|].
    assert (Hnle : Qle_bool amt (h_due_amount h + (1 # 100)) = false).
    { destruct (Qle_bool amt (h_due_amount h + (1 # 100))) eqn:E; [|reflexivity].
      apply Qle_bool_iff in E. exfalso; exact (Qlt_not_le _ _ Hover E). }
    destruct m; cbn; rewrite ?Hh; cbn; rewrite ?Hnle; reflexivity.
Qed.

Lemma C2_overpay_rejected_witness :
  apply_payment None 1 (2 # 100) PCash db_asha_paid = (Error Conflict, db_asha_paid).
Proof.
  destruct (find_history 1 db_asha_paid) as [h|] eqn:Hh.
  2: { vm_compute in Hh; discriminate. }
  assert (Hover : (h_due_amount h + (1 # 100) < 2 # 100)%Q).
  { vm_compute in Hh; injection Hh as <-; vm_compute; reflexivity. }
  rewrite (proj2 (C2_overpay_rejected None 1 (2 # 100) PCash db_asha_paid h Hh Hover)).
  reflexivity.
Defined.

(** ** C3 *)

(** C3 (confirmed): ApplyPayment either leaves the whole state as it was
    (every refusal and every storage failure rolls back) or succeeds, and
    then the targeted history row and its owner's student row both gain
    [amount] on the chosen channel and on [amount_paid] and lose it on
    [due_amount]; no other outcome exists. *)
Theorem C3_apply_payment_moves_both_rows (b : option nat) (hid : nat) (amt : Q)
  (m : payment_method) (d : db) :
  let res := apply_payment b hid amt m d in
  (fst res <> Ok /\ snd res = d) \/
  (fst res = Ok /\
   exists h s h' s',
     find_history hid d = Some h /\
     find_student (h_student_id h) d = Some s /\
     find_history hid (snd res) = Some h' /\
     find_student (h_student_id h) (snd res) = Some s' /\
     (col (h_cash h') = col (h_cash h) + cash_part m amt)%Q /\
     (col (s_cash s') = col (s_cash s) + cash_part m amt)%Q /\
     (col (h_online h') = col (h_online h) + online_part m amt)%Q /\
     (col (s_online s') = col (s_online s) + online_part m amt)%Q /\
     (h_amount_paid h' = h_amount_paid h + amt)%Q /\
     (s_amount_paid s' = s_amount_paid s + amt)%Q /\
     (h_due_amount h' = h_due_amount h - amt)%Q /\
     (s_due_amount s' = s_due_amount s - amt)%Q).
Proof.
  cbv zeta.
  destruct (apply_payment_cases b hid amt m d) as [[e ->]|(d' & -> & Hpost)].
  - left; split; [discriminate|reflexivity].
  - right; split; [reflexivity|].
    destruct Hpost as (h & s & Hh & Hs & _ & _ & _ & ->).
    destruct (paid_state_rows hid amt m h s d Hh Hs) as [Hh' Hs'].
    do 4 eexists; split; [exact Hh|]; split; [exact Hs|];
      split; [exact Hh'|]; split; [exact Hs'|].
    repeat split.
Qed.

(** ** C4 *)

(** C4 (confirmed): a successful Edit keeps the number of history rows of the
    member and rewrites only the row with the member's largest history id
    (history ids are the table's primary key, hence distinct); a successful
    Renew appends exactly one row of the member after the existing rows,
    which stay as they were. *)
Theorem C4_edit_overwrites_renew_appends :
  (forall b id r d d',
     NoDup (map h_id (history d)) ->
     edit b id r d = (Ok, d') ->
     List.length (member_history id (history d')) =
       List.length (member_history id (history d)) /\
     forall h, In h (history d) ->
       opt_eqb (Some (h_id h)) (latest_history_id id (history d)) = false ->
       In h (history d')) /\
  (forall b id r d d',
     renew b id r d = (Ok, d') ->
     exists row, history d' = history d ++ [row] /\ h_student_id row = id /\
       List.length (member_history id (history d')) =
         S (List.length (member_history id (history d)))).
Proof.
  split.
  - intros b id r d d' Hnd Hok.
    destruct (transaction_ok _ _ b d d' (edit_body_history id r d) Hok)
      as (f & Hd' & Hf).
    rewrite Hd'; split.
    + unfold member_history; apply filter_map_same.
      intros x Hx.
      destruct (opt_eqb (Some (h_id x)) (latest_history_id id (history d))) eqn:E;
        [|reflexivity].
      destruct (latest_history_id id (history d)) as [t|] eqn:Et; [|discriminate].
      apply Nat.eqb_eq in E.
      destruct (latest_history_id_in id (history d) t Et) as (h0 & Hin & Hid & Hs).
      assert (x = h0) as -> by (apply (nodup_key h_id (history d)); congruence).
      destruct (Hf h0) as [-> _]; rewrite Hs; reflexivity.
    + intros h Hin Hnot.
      apply in_map_iff; exists h; rewrite Hnot; split; [reflexivity|exact Hin].
  - intros b id r d d' Hok.
    destruct (transaction_ok _ _ b d d' (renew_body_history id r d) Hok)
      as (row & Hd' & Hrow).
    exists row; split; [exact Hd'|]; split; [exact Hrow|].
    unfold member_history; rewrite Hd', filter_app, length_app; cbn.
    rewrite Hrow, Nat.eqb_refl; cbn; rewrite Nat.add_1_r; reflexivity.
Qed.

Lemma C4_edit_overwrites_renew_appends_witness :
  List.length (member_history 1 (history (snd (edit None 1 req_asha db_asha)))) =
    List.length (member_history 1 (history db_asha)) /\
  exists row, history (snd (renew None 1 req_asha_feb db_asha)) = history db_asha ++ [row].
Proof.
  split.
  - apply (proj1 C4_edit_overwrites_renew_appends None 1 req_asha db_asha
             (snd (edit None 1 req_asha db_asha))).
    + vm_compute; repeat constructor; cbn; intuition discriminate.
    + vm_compute; reflexivity.
  - destruct (proj2 C4_edit_overwrites_renew_appends None 1 req_asha_feb db_asha
                (snd (renew None 1 req_asha_feb db_asha)))
      as (row & Hrow & _ & _).
    + vm_compute; reflexivity.
    + exists row; exact Hrow.
Defined.

(** ** C5 *)

(** C5 (code_bug): Delete runs its four statements without a transaction.
    When the third one (deleting the history rows) fails after the locker
    was released, Asha's student row still references locker 1 while the
    locker is no longer assigned: the locker invariant, which held before,
    is broken. *)
Theorem C5_interrupted_delete_breaks_locker_invariant :
  locker_inv db_asha = true /\
  fst (delete (Some 2) 1 db_asha) = Error Internal /\
  locker_inv (snd (delete (Some 2) 1 db_asha)) = false /\
  option_map s_locker_id (find_student 1 (snd (delete (Some 2) 1 db_asha)))
    = Some (Some 1).
Proof. vm_compute; repeat split. Qed.

(** ** C6 *)

(** C6 (code_bug): Edit runs no seat check. Bala (member 2, seat 1, shift 2)
    edited to seat 1, shift 1, which Asha (member 1) holds, succeeds and
    leaves two assignments of seat 1 on shift 1, one per member; Renew with
    the same request is refused with Conflict. *)
Theorem C6_edit_double_books_seat :
  seat_taken_by_other 1 1 2 db_two = true /\
  fst (edit None 2 req_bala_shift1 db_two) = Ok /\
  map sa_student_id
    (filter (fun a => opt_eqb (sa_seat_id a) (Some 1) && (sa_shift_id a =? 1))
       (seat_assignments (snd (edit None 2 req_bala_shift1 db_two)))) = [1; 2] /\
  renew None 2 req_bala_shift1 db_two = (Error Conflict, db_two).
Proof. vm_compute; repeat split. Qed.

(** ** C7 *)

(** C7 (code_bug): Enroll refuses a fee of -100 with the validation error,
    but Edit and Renew run no numeric validation: both succeed with it and
    store the negative fee. *)
Theorem C7_edit_renew_accept_negative_fee :
  fst (enroll None req_negative_fee db_empty) = Error ValidationError /\
  fst (edit None 1 req_negative_fee db_asha) = Ok /\
  option_map s_total_fee (find_student 1 (snd (edit None 1 req_negative_fee db_asha)))
    = Some (-100)%Q /\
  fst (renew None 1 req_negative_fee db_asha) = Ok /\
  option_map s_total_fee (find_student 1 (snd (renew None 1 req_negative_fee db_asha)))
    = Some (-100)%Q.
Proof. vm_compute; repeat split. Qed.

(** ** C8 *)

(** C8 (code_bug): Delete is not one transaction. If its third statement
    fails, Asha's seat assignments are already deleted and her locker
    released, while her student row and history rows remain: the state is
    neither the one before nor the one after the cascade. A failure at the
    same point of Renew, which runs inside BEGIN/ROLLBACK, leaves the state
    untouched. *)
Theorem C8_interrupted_delete_is_partial :
  let res := delete (Some 2) 1 db_asha in
  fst res = Error Internal /\
  seat_assignments (snd res) = [] /\ seat_assignments db_asha <> [] /\
  find_student 1 (snd res) = find_student 1 db_asha /\
  find_student 1 db_asha <> None /\
  history (snd res) = history db_asha /\
  lockers (snd res) <> lockers db_asha /\
  snd (renew (Some 2) 1 req_asha_feb db_asha) = db_asha.
Proof. vm_compute; repeat split; discriminate. Qed.

(** ** C9 *)

(** C9 (confirmed): a status update to active changes nothing but the
    [is_active] column of the member's row: seat assignments, lockers,
    history rows and every other column ([set_active] copies them) are left
    as they were, and a refused or failed call leaves the whole state. *)
Theorem C9_reactivation_only_sets_flag (b : option nat) (id : nat) (d : db) :
  let res := set_status b id true d in
  snd res = d \/
  (fst res = Ok /\
   lockers (snd res) = lockers d /\
   seat_assignments (snd res) = seat_assignments d /\
   history (snd res) = history d /\
   students (snd res) =
     map (fun s => if s_id s =? id then set_active true s else s) (students d)).
Proof.
  cbv zeta.
  destruct (transaction_cases _ _ b d (status_body_true id d))
    as [[e He]|(d' & Hd' & ->)]; unfold set_status; [rewrite He; left; reflexivity|].
  rewrite Hd'; right; repeat split.
Qed.

(** ** C10 *)

(** C10 (confirmed): after a successful payment the targeted history row's
    due is its previous due minus the amount, and at least -0.01; the
    student row's due has no such bound: after Asha's renewal her head due
    is 0 while history row 1 still owes 600, and paying those 600 drives
    the head due to -600. *)
Theorem C10_history_due_bound :
  (forall b hid amt m d d',
     apply_payment b hid amt m d = (Ok, d') ->
     exists h h', find_history hid d = Some h /\ find_history hid d' = Some h' /\
       (h_due_amount h' = h_due_amount h - amt)%Q /\
       (- (1 # 100) <= h_due_amount h')%Q) /\
  (fst (apply_payment None 1 600%Q POnline db_asha_renewed) = Ok /\
   exists s, find_student 1 (snd (apply_payment None 1 600%Q POnline db_asha_renewed))
               = Some s /\ (s_due_amount s < - (1 # 100))%Q).
Proof.
  split.
  - intros b hid amt m d d' Hok.
    destruct (apply_payment_cases b hid amt m d) as [[e He]|(d'' & He & Hpost)];
      rewrite He in Hok; inversion Hok; subst d''.
    destruct Hpost as (h & s & Hh & Hs & _ & _ & Hle & ->).
    destruct (paid_state_rows hid amt m h s d Hh Hs) as [Hh' _].
    exists h; eexists; split; [exact Hh|]; split; [exact Hh'|]; split; [reflexivity|].
    cbn. apply Qle_bool_iff in Hle. lra.
  - split; [vm_compute; reflexivity|].
    eexists; split; [vm_compute; reflexivity|]. vm_compute; reflexivity.
Qed.

Lemma C10_history_due_bound_witness :
  exists h', find_history 1 (snd (apply_payment None 1 600%Q POnline db_asha_renewed))
             = Some h' /\ (- (1 # 100) <= h_due_amount h')%Q.
Proof.
  destruct (proj1 C10_history_due_bound None 1 600%Q POnline db_asha_renewed
              (snd (apply_payment None 1 600%Q POnline db_asha_renewed)))
    as (h & h' & _ & Hh' & _ & Hle).
  - vm_compute; reflexivity.
  - exists h'; split; assumption.
Defined.

(** * Further properties of the routes and guards *)

Lemma includes_In l p : includes l p = true <-> In p l.
Proof.
  unfold includes; rewrite existsb_exists; split.
  - intros (x & Hx & E); apply String.eqb_eq in E; subst; exact Hx.
  - intros H; exists p; split; [exact H|apply String.eqb_refl].
Qed.

(** X1: without a session user, [checkPermissions], [checkPermission], [checkAdmin], [checkAdminOrStaff] and [authenticateUser] all answer 401; a user whose role is [admin] passes the four role and permission guards whatever its permissions. *)
Theorem guards_no_session_admin (i : nat) (name : string) (perms : option (list string))
  (ps : list string) (logic p : string) :
  checkPermissions ps logic None = Status 401 /\ checkPermission p None = Status 401 /\
  checkAdmin None = Status 401 /\ checkAdminOrStaff None = Status 401 /\
  authenticateUser None = Status 401 /\
  let s := Some (mkUser i name "admin"%string perms) in
  checkPermissions ps logic s = Next /\ checkPermission p s = Next /\
  checkAdmin s = Next /\ checkAdminOrStaff s = Next.
Proof. repeat split. Qed.

(** X2: [checkPermissions] on a one-element list behaves as [checkPermission] on that permission, for either logic. *)
Theorem checkPermissions_single (p logic : string) (s : option session_user) :
  checkPermissions [p] logic s = checkPermission p s.
Proof.
  destruct s as [u|]; cbn; [|reflexivity].
  destruct (String.eqb (u_role u) "admin"%string); [reflexivity|].
  destruct (String.eqb (to_upper logic) "AND"%string); cbn;
    rewrite ?andb_true_r, ?orb_false_r; reflexivity.
Qed.

(** X3: for a user who is not an admin, [checkPermissions] calls [next()] exactly when, under logic ['AND'] (any case), every listed permission is among the user's, and otherwise when at least one is. *)
Theorem checkPermissions_non_admin (ps : list string) (logic : string) (u : session_user)
  (Hrole : u_role u <> "admin"%string) :
  checkPermissions ps logic (Some u) = Next <->
  if String.eqb (to_upper logic) "AND"%string
  then (forall p, In p ps -> In p (perms_of u))
  else (exists p, In p ps /\ In p (perms_of u)).
Proof.
  cbn. apply String.eqb_neq in Hrole; rewrite Hrole.
  destruct (String.eqb (to_upper logic) "AND"%string).
  - destruct (forallb (includes (perms_of u)) ps) eqn:E; cbn.
    + rewrite forallb_forall in E; split; [|reflexivity].
      intros _ p Hp; apply includes_In, E, Hp.
    + split; [discriminate|]. intros H.
      rewrite <- Bool.not_true_iff_false in E. exfalso; apply E.
      apply forallb_forall; intros p Hp; apply includes_In, H, Hp.
  - destruct (existsb (includes (perms_of u)) ps) eqn:E; cbn.
    + rewrite existsb_exists in E; split; [|reflexivity].
      intros _; destruct E as (p & Hp & Hi); exists p; split; [exact Hp|apply includes_In, Hi].
    + split; [discriminate|]. intros (p & Hp & Hi).
      rewrite <- Bool.not_true_iff_false in E. exfalso; apply E.
      apply existsb_exists; exists p; split; [exact Hp|apply includes_In, Hi].
Qed.

Lemma checkPermissions_non_admin_witness :
  u_role (session_of user_ravi) <> "admin"%string /\
  (checkPermissions ["view_collections"%string; "manage_seats"%string] "and"
     (Some (session_of user_ravi)) = Next <->
   if String.eqb (to_upper "and") "AND"%string
   then (forall p, In p ["view_collections"%string; "manage_seats"%string] ->
           In p (perms_of (session_of user_ravi)))
   else (exists p, In p ["view_collections"%string; "manage_seats"%string] /\
           In p (perms_of (session_of user_ravi)))).
Proof.
  split; [cbn; discriminate|].
  apply checkPermissions_non_admin; cbn; discriminate.
Defined.

(** X4: with an empty permission list, logic ['AND'] lets every signed-in user through, while ['OR'] lets only admins through and answers 403 to the others. *)
Theorem checkPermissions_empty (u : session_user) :
  checkPermissions [] "AND"%string (Some u) = Next /\
  checkPermissions [] "OR"%string (Some u) =
    (if String.eqb (u_role u) "admin"%string then Next else Status 403).
Proof. cbn; destruct (String.eqb (u_role u) "admin"%string); split; reflexivity. Qed.

(** X5: [checkAdmin] calls [next()] exactly for a session user with role [admin]; [checkAdminOrStaff] exactly for one with role [admin] or [staff]. *)
Theorem role_guards (s : option session_user) :
  (checkAdmin s = Next <-> exists u, s = Some u /\ u_role u = "admin"%string) /\
  (checkAdminOrStaff s = Next <->
     exists u, s = Some u /\ (u_role u = "admin"%string \/ u_role u = "staff"%string)).
Proof.
  destruct s as [u|]; cbn.
  - split.
    + destruct (String.eqb (u_role u) "admin"%string) eqn:E; cbn; split.
      * intros _; exists u; split; [reflexivity|apply String.eqb_eq, E].
      * reflexivity.
      * discriminate.
      * intros (v & Hv & Hr); injection Hv as <-; apply String.eqb_neq in E; contradiction.
    + destruct (String.eqb (u_role u) "admin"%string) eqn:E1, (String.eqb (u_role u) "staff"%string) eqn:E2;
        cbn; split; try reflexivity; try discriminate;
        try (intros _; exists u; split; [reflexivity|];
             first [left; apply String.eqb_eq, E1 | right; apply String.eqb_eq, E2]).
      intros (v & Hv & [Hr|Hr]); injection Hv as <-;
        [apply String.eqb_neq in E1|apply String.eqb_neq in E2]; contradiction.
  - split; split; try discriminate; intros (v & Hv & _); discriminate.
Qed.

(** X6: a login answered 200 found the first [users] row with that username, whose password equals the one given; the new session is built from that row, [/status] then reports it, and [checkPermission] passes exactly for admins or for permissions listed on the row. *)
Theorem login_success (users : list user_row) (name pw : string)
  (s s' : option session_user) (H : login users name pw s = (Status 200, s')) :
  exists du,
    find (fun du => String.eqb (du_username du) name) users = Some du /\
    du_password du = pw /\ s' = Some (session_of du) /\
    auth_status s' = (true, Some (session_of du)) /\
    forall p, checkPermission p s' = Next <->
      (du_role du = "admin"%string \/
       In p (match du_permissions du with Some l => l | None => [] end)).
Proof.
  unfold login in H.
  destruct (blank name || blank pw); [discriminate|].
  destruct (find _ users) as [du|]; [|discriminate].
  destruct (String.eqb pw (du_password du)) eqn:E; cbn in H; [|discriminate].
  injection H as <-. exists du.
  split; [reflexivity|]. split; [symmetry; apply String.eqb_eq, E|].
  split; [reflexivity|]. split; [reflexivity|].
  intros p; unfold checkPermission, session_of, perms_of; cbn.
  destruct (String.eqb (du_role du) "admin"%string) eqn:Er; cbn.
  - split; [intros _; left; apply String.eqb_eq, Er|reflexivity].
  - match goal with |- context [existsb (String.eqb p) ?l] =>
      destruct (existsb (String.eqb p) l) eqn:Ei end; cbn.
    + split; [intros _; right; apply (includes_In _ p), Ei|reflexivity].
    + split; [discriminate|]. intros [Hr|Hi].
      * apply String.eqb_neq in Er; contradiction.
      * apply (includes_In _ p) in Hi; unfold includes in Hi; congruence.
Qed.

Lemma login_success_witness :
  login users_sample "ravi" "ravi123" None = (Status 200, Some (session_of user_ravi)) /\
  exists du,
    find (fun du => String.eqb (du_username du) "ravi") users_sample = Some du /\
    du_password du = "ravi123"%string /\ Some (session_of user_ravi) = Some (session_of du) /\
    auth_status (Some (session_of user_ravi)) = (true, Some (session_of du)) /\
    forall p, checkPermission p (Some (session_of user_ravi)) = Next <->
      (du_role du = "admin"%string \/
       In p (match du_permissions du with Some l => l | None => [] end)).
Proof.
  assert (H : login users_sample "ravi" "ravi123" None = (Status 200, Some (session_of user_ravi)))
    by reflexivity.
  split; [exact H|exact (login_success _ _ _ _ _ H)].
Defined.

(** X7: login answers 200 exactly when username and password are non-empty and the first row with that username has that password; every other answer leaves the session unchanged. *)
Theorem login_refusal_keeps_session (users : list user_row) (name pw : string)
  (s : option session_user) :
  (fst (login users name pw s) = Status 200 <->
     name <> ""%string /\ pw <> ""%string /\
     exists du, find (fun du => String.eqb (du_username du) name) users = Some du /\
                du_password du = pw) /\
  (fst (login users name pw s) = Status 200 \/ snd (login users name pw s) = s).
Proof.
  unfold login, blank.
  destruct (String.eqb name ""%string) eqn:En; cbn.
  { apply String.eqb_eq in En; split; [split; [discriminate|intros (H & _); contradiction]|right; reflexivity]. }
  destruct (String.eqb pw ""%string) eqn:Ep; cbn.
  { apply String.eqb_eq in Ep; split; [split; [discriminate|intros (_ & H & _); contradiction]|right; reflexivity]. }
  apply String.eqb_neq in En, Ep.
  destruct (find _ users) as [du|] eqn:Ef; cbn.
  - destruct (String.eqb pw (du_password du)) eqn:E; cbn.
    + apply String.eqb_eq in E. split; [|left; reflexivity].
      split; [intros _; repeat split; auto; exists du; auto|reflexivity].
    + apply String.eqb_neq in E. split; [|right; reflexivity].
      split; [discriminate|]. intros (_ & _ & v & Hv & Hp); injection Hv as <-; congruence.
  - split; [|right; reflexivity]. split; [discriminate|].
    intros (_ & _ & v & Hv & _); discriminate.
Qed.

(** X8: [/refresh] with a signed-in user either answers 200 and replaces the session by one built from a [users] row with the same id, or, when no row has that id, answers 404 and keeps the old session. *)
Theorem refresh_reloads_or_keeps (users : list user_row) (u : session_user)
  (Hid : u_id u <> 0) :
  (fst (refresh users (Some u)) = Status 200 /\
   exists du, In du users /\ du_id du = u_id u /\
     snd (refresh users (Some u)) = Some (session_of du)) \/
  ((forall du, In du users -> du_id du <> u_id u) /\
   refresh users (Some u) = (Status 404, Some u)).
Proof.
  unfold refresh, authenticateUser.
  apply Nat.eqb_neq in Hid; rewrite Hid; cbn.
  destruct (find (fun du => du_id du =? u_id u) users) as [du|] eqn:Ef.
  - left; split; [reflexivity|]. exists du.
    destruct (find_some _ _ Ef) as [Hin Hk]; apply Nat.eqb_eq in Hk; auto.
  - right; split; [|reflexivity].
    intros du Hin Heq. apply (find_none _ _ Ef) in Hin. rewrite Heq, Nat.eqb_refl in Hin; discriminate.
Qed.

Lemma refresh_reloads_or_keeps_witness :
  u_id (session_of user_ravi) <> 0 /\
  ((fst (refresh users_sample (Some (session_of user_ravi))) = Status 200 /\
    exists du, In du users_sample /\ du_id du = u_id (session_of user_ravi) /\
      snd (refresh users_sample (Some (session_of user_ravi))) = Some (session_of du)) \/
   ((forall du, In du users_sample -> du_id du <> u_id (session_of user_ravi)) /\
    refresh users_sample (Some (session_of user_ravi)) =
      (Status 404, Some (session_of user_ravi)))).
Proof. split; [cbn; discriminate|apply refresh_reloads_or_keeps; cbn; discriminate]. Defined.

Lemma opt_eqb_true x y : opt_eqb x y = true <-> x = y.
Proof.
  destruct x as [a|], y as [c|]; cbn; split; try congruence.
  - intros H; apply Nat.eqb_eq in H; congruence.
  - intros H; injection H as ->; apply Nat.eqb_refl.
Qed.

Lemma find_update_other {T} (key : T -> nat) (k k' : nat) (f : T -> T) (l : list T) :
  (forall x, key (f x) = key x) -> k' <> k ->
  find (fun x => key x =? k') (map (fun x => if key x =? k then f x else x) l)
  = find (fun x => key x =? k') l.
Proof.
  intros Hf Hne; induction l as [|x t IH]; cbn; [reflexivity|].
  destruct (key x =? k) eqn:E; cbn; [|rewrite IH; reflexivity].
  apply Nat.eqb_eq in E. rewrite Hf, E.
  replace (k =? k') with false by (symmetry; apply Nat.eqb_neq; congruence).
  exact IH.
Qed.

Lemma In_filter_other {T} (key : T -> nat) (k : nat) (l : list T) x :
  In x (filter (fun y => negb (key y =? k)) l) <-> In x l /\ key x <> k.
Proof.
  rewrite filter_In, negb_true_iff, Nat.eqb_neq; reflexivity.
Qed.

Lemma In_free_lockers_of sid d l :
  In l (lockers (free_lockers_of sid d)) ->
  l_student_id l <> Some sid /\
  (In l (lockers d) \/ exists l0, In l0 (lockers d) /\ l = mkLocker (l_id l0) false None).
Proof.
  unfold free_lockers_of; cbn; intros H; apply in_map_iff in H as (l0 & <- & Hin).
  destruct (opt_eqb (l_student_id l0) (Some sid)) eqn:E; cbn.
  - split; [discriminate|right; exists l0; auto].
  - split; [|left; exact Hin]. intros Heq; rewrite Heq in E.
    rewrite (proj2 (opt_eqb_true _ _) eq_refl) in E; discriminate.
Qed.

Lemma free_lockers_of_keeps sid d l :
  In l (lockers d) -> l_student_id l <> Some sid -> In l (lockers (free_lockers_of sid d)).
Proof.
  intros Hin Hne; unfold free_lockers_of; cbn; apply in_map_iff; exists l; split; [|exact Hin].
  destruct (opt_eqb (l_student_id l) (Some sid)) eqn:E; [|reflexivity].
  apply opt_eqb_true in E; contradiction.
Qed.

(** X9: Delete with no storage failure answers Ok exactly when the member exists, else NotFound; afterwards the member's student row, history rows and seat assignments are gone and nothing else of those tables is, no locker points to the member, and every locker that did not point to it is kept. *)
Theorem delete_cascade (id : nat) (d : db) :
  let res := delete None id d in
  fst res = match find_student id d with Some _ => Ok | None => Error NotFound end /\
  (forall s, In s (students (snd res)) <-> In s (students d) /\ s_id s <> id) /\
  (forall h, In h (history (snd res)) <-> In h (history d) /\ h_student_id h <> id) /\
  (forall a, In a (seat_assignments (snd res)) <->
             In a (seat_assignments d) /\ sa_student_id a <> id) /\
  (forall l, In l (lockers (snd res)) -> l_student_id l <> Some id) /\
  (forall l, In l (lockers d) -> l_student_id l <> Some id -> In l (lockers (snd res))).
Proof.
  cbv zeta. unfold delete, autocommit, delete_body, bind, exec, query, ret, fail; cbn.
  unfold find_student; destruct (find (fun s => s_id s =? id) (students d)); cbn;
  (split; [reflexivity|]);
  (split; [intros x; apply In_filter_other|]);
  (split; [intros h; apply In_filter_other|]);
  (split; [intros a; apply In_filter_other|]);
  (split; [intros l Hl; exact (proj1 (In_free_lockers_of id _ l Hl))|]);
  intros l Hl Hne; exact (free_lockers_of_keeps id _ l Hl Hne).
Qed.

Lemma status_body_false id d0 :
  wp (status_body id false)
     (fun _ d' => find_student id d0 <> None /\
        d' = free_lockers_of id (snd (update_student id clear_locker_ref
               (delete_assignments id (snd (update_student id (set_active false) d0)))))) d0.
Proof.
  unfold status_body, select, exec. wp_run; try discriminate.
  split; [|reflexivity]. intros Hn.
  match goal with H : fst (update_student _ _ _) = Some _ |- _ =>
    unfold update_student in H; cbn in H; rewrite Hn in H; discriminate end.
Qed.

(** X10: a successful deactivation targeted an existing member; the member's row is inactive with no locker, other students, other assignments and other lockers are kept, no locker points to the member any more, and the history is untouched. *)
Theorem deactivate_releases (b : option nat) (id : nat) (d d' : db)
  (H : set_status b id false d = (Ok, d')) :
  find_student id d <> None /\
  (forall s, In s (students d') -> s_id s = id ->
     s_locker_id s = None /\ s_is_active s = false) /\
  (forall s, In s (students d) -> s_id s <> id -> In s (students d')) /\
  (forall a, In a (seat_assignments d') <->
             In a (seat_assignments d) /\ sa_student_id a <> id) /\
  (forall l, In l (lockers d') -> l_student_id l <> Some id) /\
  (forall l, In l (lockers d) -> l_student_id l <> Some id -> In l (lockers d')) /\
  history d' = history d.
Proof.
  destruct (transaction_ok _ _ b d d' (status_body_false id d) H) as [Hf ->].
  split; [exact Hf|].
  split.
  { intros s Hs Hid. cbn in Hs. apply in_map_iff in Hs as (s1 & <- & Hs1).
    apply in_map_iff in Hs1 as (s0 & <- & Hs0).
    destruct s0 as [i ? ? ? ? ? ? ? ? ? ? ? ? ?]; cbn in Hid |- *.
    destruct (i =? id) eqn:E; cbn in Hid |- *; rewrite ?E in Hid |- *; cbn in Hid |- *; [split; reflexivity|].
    apply Nat.eqb_neq in E; contradiction. }
  split.
  { intros s Hs Hne. cbn. apply Nat.eqb_neq in Hne.
    apply in_map_iff; exists s; split; [cbn; rewrite Hne; reflexivity|].
    apply in_map_iff; exists s; split; [rewrite Hne; reflexivity|exact Hs]. }
  split; [intros a; cbn; apply In_filter_other|].
  split; [intros l Hl; exact (proj1 (In_free_lockers_of id _ l Hl))|].
  split; [|reflexivity].
  intros l Hl Hne; apply free_lockers_of_keeps; [exact Hl|exact Hne].
Qed.

Lemma deactivate_releases_witness :
  set_status None 1 false db_asha = (Ok, db_asha_inactive) /\
  find_student 1 db_asha <> None /\
  (forall s, In s (students db_asha_inactive) -> s_id s = 1 ->
     s_locker_id s = None /\ s_is_active s = false) /\
  (forall s, In s (students db_asha) -> s_id s <> 1 -> In s (students db_asha_inactive)) /\
  (forall a, In a (seat_assignments db_asha_inactive) <->
             In a (seat_assignments db_asha) /\ sa_student_id a <> 1) /\
  (forall l, In l (lockers db_asha_inactive) -> l_student_id l <> Some 1) /\
  (forall l, In l (lockers db_asha) -> l_student_id l <> Some 1 ->
     In l (lockers db_asha_inactive)) /\
  history db_asha_inactive = history db_asha.
Proof.
  assert (H : set_status None 1 false db_asha = (Ok, db_asha_inactive))
    by (vm_compute; reflexivity).
  split; [exact H|exact (deactivate_releases _ _ _ _ H)].
Defined.

(** X11: a status update of a member that does not exist never changes the state, and without storage failure it fails with NotFound. *)
Theorem status_missing_member (b : option nat) (id : nat) (act : bool) (d : db)
  (H : find_student id d = None) :
  snd (set_status b id act d) = d /\ set_status None id act d = (Error NotFound, d).
Proof.
  unfold set_status, transaction, status_body, bind, query, exec, ret, fail,
    update_student; cbn; rewrite H; cbn.
  destruct b as [[|n]|]; cbn; split; reflexivity.
Qed.

Lemma status_missing_member_witness :
  find_student 1 db_empty = None /\
  snd (set_status (Some 2) 1 true db_empty) = db_empty /\
  set_status None 1 true db_empty = (Error NotFound, db_empty).
Proof. split; [reflexivity|apply status_missing_member; reflexivity]. Defined.

(** X12: ApplyPayment with a non-positive amount or a method other than cash and online fails with ValidationError and leaves the state unchanged, whatever the stored rows. *)
Theorem apply_payment_invalid_input (b : option nat) (hid : nat) (amt : Q)
  (m : payment_method) (d : db) (H : (amt <= 0)%Q \/ m = POther) :
  apply_payment b hid amt m d = (Error ValidationError, d).
Proof.
  unfold apply_payment, transaction, apply_payment_body.
  destruct (Qle_bool amt 0) eqn:E; [reflexivity|].
  destruct H as [H | ->]; [|reflexivity].
  apply Qle_bool_iff in H; congruence.
Qed.

Lemma apply_payment_invalid_input_witness :
  ((-5 <= 0)%Q \/ PCash = POther) /\
  apply_payment None 1 (-5)%Q PCash db_asha = (Error ValidationError, db_asha).
Proof.
  split; [left; vm_compute; discriminate|].
  apply apply_payment_invalid_input; left; vm_compute; discriminate.
Defined.

(** X13: with a valid amount and method, ApplyPayment fails with NotFound and changes nothing when the history row is missing, or when it exists, the amount is within its due and its member row is missing. *)
Theorem apply_payment_missing_rows (hid : nat) (amt : Q) (m : payment_method) (d : db)
  (Hamt : (0 < amt)%Q) (Hm : m <> POther)
  (Hmiss : find_history hid d = None \/
           exists h, find_history hid d = Some h /\
             (amt <= h_due_amount h + (1 # 100))%Q /\
             find_student (h_student_id h) d = None) :
  apply_payment None hid amt m d = (Error NotFound, d).
Proof.
  unfold apply_payment, transaction, apply_payment_body, bind, select, query, fail, ret.
  replace (Qle_bool amt 0) with false
    by (symmetry; apply not_true_iff_false; rewrite Qle_bool_iff; lra).
  assert (Hk : forall A (k1 k2 : M A),
             match m with POther => k1 | _ => k2 end = k2) by (destruct m; congruence).
  rewrite Hk; cbn.
  destruct Hmiss as [ Hn | (h & Hh & Hle & Hs) ]; [rewrite Hn|rewrite Hh]; [reflexivity|]; cbn.
  apply Qle_bool_iff in Hle; rewrite Hle; cbn; rewrite Hs; reflexivity.
Qed.

Lemma apply_payment_missing_rows_witness :
  (0 < 100)%Q /\ PCash <> POther /\
  (find_history 7 db_asha = None \/
   exists h, find_history 7 db_asha = Some h /\ (100 <= h_due_amount h + (1 # 100))%Q /\
     find_student (h_student_id h) db_asha = None) /\
  apply_payment None 7 100%Q PCash db_asha = (Error NotFound, db_asha).
Proof.
  split; [vm_compute; reflexivity|]. split; [discriminate|].
  split; [left; vm_compute; reflexivity|].
  apply apply_payment_missing_rows;
    [vm_compute; reflexivity|discriminate|left; vm_compute; reflexivity].
Defined.
Lemma apply_payment_ok b hid amt m d d' :
  apply_payment b hid amt m d = (Ok, d') -> payment_post hid amt m d tt d'.
Proof.
  intros H; destruct (apply_payment_cases b hid amt m d) as [[e He]|(d'' & He & Hp)];
    rewrite He in H; inversion H; subst; exact Hp.
Qed.

(** X14: a successful ApplyPayment changes only the targeted history row and its member's row: other history rows and students read the same, the table sizes are kept, and lockers, seat assignments and id counters are unchanged. *)
Theorem apply_payment_frame (b : option nat) (hid : nat) (amt : Q) (m : payment_method)
  (d d' : db) (H : apply_payment b hid amt m d = (Ok, d')) :
  exists h, find_history hid d = Some h /\
    (forall k, k <> hid -> find_history k d' = find_history k d) /\
    (forall sid, sid <> h_student_id h -> find_student sid d' = find_student sid d) /\
    List.length (history d') = List.length (history d) /\
    List.length (students d') = List.length (students d) /\
    lockers d' = lockers d /\ seat_assignments d' = seat_assignments d /\
    next_student_id d' = next_student_id d /\ next_history_id d' = next_history_id d.
Proof.
  destruct (apply_payment_ok _ _ _ _ _ _ H) as (h & s & Hh & Hs & _ & _ & _ & ->).
  exists h; split; [exact Hh|].
  unfold paid_state, find_history, find_student, update_history, update_student; cbn.
  split; [intros k Hk; apply find_update_other; [reflexivity|exact Hk]|].
  split; [intros sid Hk; apply find_update_other; [reflexivity|exact Hk]|].
  rewrite !length_map; repeat split.
Qed.

Lemma apply_payment_frame_witness :
  apply_payment None 1 600%Q POnline db_asha = (Ok, db_asha_paid) /\
  exists h, find_history 1 db_asha = Some h /\
    (forall k, k <> 1 -> find_history k db_asha_paid = find_history k db_asha) /\
    (forall sid, sid <> h_student_id h ->
       find_student sid db_asha_paid = find_student sid db_asha) /\
    List.length (history db_asha_paid) = List.length (history db_asha) /\
    List.length (students db_asha_paid) = List.length (students db_asha) /\
    lockers db_asha_paid = lockers db_asha /\
    seat_assignments db_asha_paid = seat_assignments db_asha /\
    next_student_id db_asha_paid = next_student_id db_asha /\
    next_history_id db_asha_paid = next_history_id db_asha.
Proof.
  assert (H : apply_payment None 1 600%Q POnline db_asha = (Ok, db_asha_paid))
    by (vm_compute; reflexivity).
  split; [exact H|exact (apply_payment_frame _ _ _ _ _ _ H)].
Defined.

(** X15: if the targeted history row and its member row satisfy due = fee - discount - (cash + online), a successful ApplyPayment keeps that balance on both rows and keeps amount_paid + due on each. *)
Theorem apply_payment_keeps_balance (b : option nat) (hid : nat) (amt : Q)
  (m : payment_method) (d d' : db) (h : history_row) (s : student)
  (H : apply_payment b hid amt m d = (Ok, d'))
  (Hh : find_history hid d = Some h) (Hs : find_student (h_student_id h) d = Some s)
  (Hbh : h_balanced h) (Hbs : s_balanced s) :
  exists h' s', find_history hid d' = Some h' /\
    find_student (h_student_id h) d' = Some s' /\
    h_balanced h' /\ s_balanced s' /\
    (h_amount_paid h' + h_due_amount h' == h_amount_paid h + h_due_amount h)%Q /\
    (s_amount_paid s' + s_due_amount s' == s_amount_paid s + s_due_amount s)%Q.
Proof.
  destruct (apply_payment_ok _ _ _ _ _ _ H) as (h0 & s0 & Hh0 & Hs0 & _ & Hm & _ & ->).
  rewrite Hh in Hh0; injection Hh0 as <-. rewrite Hs in Hs0; injection Hs0 as <-.
  destruct (paid_state_rows hid amt m h s d Hh Hs) as [Hh' Hs'].
  do 2 eexists; split; [exact Hh'|]; split; [exact Hs'|].
  unfold h_balanced, s_balanced in *; cbn.
  destruct m; [| |contradiction]; cbn; repeat split; lra.
Qed.

Lemma apply_payment_keeps_balance_witness :
  apply_payment None 1 600%Q POnline db_asha = (Ok, db_asha_paid) /\
  find_history 1 db_asha = Some asha_history1 /\
  find_student (h_student_id asha_history1) db_asha = Some asha_head /\
  h_balanced asha_history1 /\ s_balanced asha_head /\
  exists h' s', find_history 1 db_asha_paid = Some h' /\
    find_student (h_student_id asha_history1) db_asha_paid = Some s' /\
    h_balanced h' /\ s_balanced s' /\
    (h_amount_paid h' + h_due_amount h' ==
       h_amount_paid asha_history1 + h_due_amount asha_history1)%Q /\
    (s_amount_paid s' + s_due_amount s' == s_amount_paid asha_head + s_due_amount asha_head)%Q.
Proof.
  assert (H : apply_payment None 1 600%Q POnline db_asha = (Ok, db_asha_paid))
    by (vm_compute; reflexivity).
  assert (Hh : find_history 1 db_asha = Some asha_history1) by (vm_compute; reflexivity).
  assert (Hs : find_student (h_student_id asha_history1) db_asha = Some asha_head)
    by (vm_compute; reflexivity).
  assert (Hbh : h_balanced asha_history1) by (vm_compute; reflexivity).
  assert (Hbs : s_balanced asha_head) by (vm_compute; reflexivity).
  split; [exact H|]. split; [exact Hh|]. split; [exact Hs|].
  split; [exact Hbh|]. split; [exact Hbs|].
  exact (apply_payment_keeps_balance _ _ _ _ _ _ _ _ H Hh Hs Hbh Hbs).
Defined.

(** X16: two successive successful payments on the same history row have positive amounts whose sum is at most the row's original due plus 0.01. *)
Theorem two_payments_within_due (b1 b2 : option nat) (hid : nat) (a1 a2 : Q)
  (m1 m2 : payment_method) (d d1 d2 : db)
  (H1 : apply_payment b1 hid a1 m1 d = (Ok, d1))
  (H2 : apply_payment b2 hid a2 m2 d1 = (Ok, d2)) :
  exists h, find_history hid d = Some h /\
    (0 < a1)%Q /\ (0 < a2)%Q /\ (a1 + a2 <= h_due_amount h + (1 # 100))%Q.
Proof.
  destruct (apply_payment_ok _ _ _ _ _ _ H1) as (h & s & Hh & Hs & Hp1 & _ & Hle1 & Hd1).
  destruct (apply_payment_ok _ _ _ _ _ _ H2) as (h1 & s1 & Hh1 & _ & Hp2 & _ & Hle2 & _).
  subst d1. destruct (paid_state_rows hid a1 m1 h s d Hh Hs) as [Hh' _].
  rewrite Hh' in Hh1; injection Hh1 as <-. cbn in Hle2.
  exists h; split; [exact Hh|].
  apply Qle_bool_iff in Hle1, Hle2.
  assert (~ (a1 <= 0)%Q) by (intros Hc; apply Qle_bool_iff in Hc; congruence).
  assert (~ (a2 <= 0)%Q) by (intros Hc; apply Qle_bool_iff in Hc; congruence).
  repeat split; lra.
Qed.

Lemma two_payments_within_due_witness :
  apply_payment None 1 300%Q PCash db_asha = (Ok, db_asha_cash300) /\
  apply_payment None 1 300%Q POnline db_asha_cash300 = (Ok, db_asha_cash300_online300) /\
  exists h, find_history 1 db_asha = Some h /\
    (0 < 300)%Q /\ (0 < 300)%Q /\ (300 + 300 <= h_due_amount h + (1 # 100))%Q.
Proof.
  assert (H1 : apply_payment None 1 300%Q PCash db_asha = (Ok, db_asha_cash300))
    by (vm_compute; reflexivity).
  assert (H2 : apply_payment None 1 300%Q POnline db_asha_cash300 =
                 (Ok, db_asha_cash300_online300)) by (vm_compute; reflexivity).
  split; [exact H1|]. split; [exact H2|].
  exact (two_payments_within_due _ _ _ _ _ _ _ _ _ _ H1 H2).
Defined.

Lemma wp_for_check {A} (l : list A) (c : A -> db -> bool) (g : bool -> bool) (e : error)
  (Q : unit -> db -> Prop) d :
  ((forall x, In x l -> g (c x d) = false) -> Q tt d) ->
  wp (for_ l (fun x => bind (query (fun d => (c x d, d)))
                            (fun t => if g t then fail e else ret tt))) Q d.
Proof.
  revert Q; induction l as [|x t IH]; intros Q H; cbn.
  - apply wp_ret, H; intros x [].
  - apply wp_bind, wp_bind, wp_query; cbn.
    destruct (g (c x d)) eqn:E; [apply wp_fail|].
    apply wp_ret, IH; intros Ht; apply H.
    intros y [<-|Hy]; [exact E|exact (Ht y Hy)].
Qed.

Lemma wp_for_insert (seat : option nat) (sid : nat) (l : list nat)
  (Q : unit -> db -> Prop) d :
  Q tt (set_assignments d (seat_assignments d ++
                           map (fun sh => mkAssignment seat sh sid) l)) ->
  wp (for_ l (fun sh => query (fun d => (tt, insert_assignment (mkAssignment seat sh sid) d))))
     Q d.
Proof.
  revert d; induction l as [|x t IH]; intros d H; cbn.
  - apply wp_ret. rewrite app_nil_r in H. destruct d; exact H.
  - apply wp_bind, wp_query; cbn. apply IH; cbn. rewrite <- app_assoc; exact H.
Qed.

Lemma enroll_body_post r d0 :
  wp (enroll_body r) (fun _ d' =>
    let fee := num_or0 (r_total_fee r) in
    let paid := num_or0 (r_amount_paid r) in
    let disc := num_or0 (r_discount r) in
    let cash := num_or0 (r_cash r) in
    let online := num_or0 (r_online r) in
    let s := mkStudent (next_student_id d0) (r_name r) (r_phone r) (branch_of r)
               (r_locker_id r) (r_membership_start r) (r_membership_end r)
               fee paid (fee - disc - paid) (Some cash) (Some online) disc true in
    Qneg fee = false /\ Qneg paid = false /\ Qneg disc = false /\
    Qneg cash = false /\ Qneg online = false /\
    Qneg (num_or0 (r_security_money r)) = false /\
    (match r_seat_id r, r_shift_ids r with
     | Some seat, _ :: _ =>
         existsb (Nat.eqb seat) (seats d0) = true /\
         forall sh, In sh (r_shift_ids r) ->
           existsb (Nat.eqb sh) (schedules d0) = true /\ seat_taken seat sh d0 = false
     | _, _ => True
     end) /\
    (match r_locker_id r with
     | Some lid => exists l, find_locker lid d0 = Some l /\ l_is_assigned l = false /\
         lockers d' = map (fun l => if l_id l =? lid
                                    then mkLocker (l_id l) true (Some (next_student_id d0))
                                    else l) (lockers d0)
     | None => lockers d' = lockers d0
     end) /\
    students d' = students d0 ++ [s] /\
    seat_assignments d' = seat_assignments d0 ++
      map (fun sh => mkAssignment (r_seat_id r) sh (next_student_id d0)) (r_shift_ids r) /\
    history d' = history d0 ++
      [snapshot s (r_seat_id r) (first_shift (r_shift_ids r)) (branch_of r)
         (r_locker_id r) (next_history_id d0)] /\
    next_student_id d' = S (next_student_id d0) /\
    next_history_id d' = S (next_history_id d0)) d0.
Proof.
  unfold enroll_body, select, exec. cbv zeta.
  repeat first [ apply wp_for_check; intros ?Hck; cbv beta in *
               | apply wp_for_insert; cbn [fst snd]
               | wp_step ].
  all: cbn; repeat split; try reflexivity; try assumption.
  all: first
    [ eexists; split; [reflexivity|]; split; [assumption|reflexivity]
    | apply negb_false_iff; assumption
    | match goal with H : forall x, In x _ -> _ |- _ =>
        first [apply negb_false_iff, H; assumption | apply H; assumption] end ].
Qed.

Lemma renew_body_post id r d0 :
  wp (renew_body id r) (fun _ d' =>
    let fee := num_or0 (r_total_fee r) in
    let cash := num_or0 (r_cash r) in
    let online := num_or0 (r_online r) in
    let disc := num_or0 (r_discount r) in
    let paid := (cash + online)%Q in
    let due := (fee - disc - paid)%Q in
    (match r_seat_id r, r_shift_ids r with
     | Some seat, _ :: _ =>
         forall sh, In sh (r_shift_ids r) -> seat_taken_by_other seat sh id d0 = false
     | _, _ => True
     end) /\
    (match r_locker_id r with
     | Some lid => exists l, find_locker lid d0 = Some l /\
         (l_is_assigned l = false \/ l_student_id l = Some id) /\
         lockers d' = lockers (assign_locker id lid (free_lockers_of id d0))
     | None => lockers d' = lockers (free_lockers_of id d0)
     end) /\
    (exists s0, find_student id d0 = Some s0 /\
      students d' = map (fun s => if s_id s =? id
                                  then renew_row r fee paid due cash online disc s else s)
                        (students d0) /\
      history d' = history d0 ++
        [snapshot (renew_row r fee paid due cash online disc s0) (r_seat_id r)
           (first_shift (r_shift_ids r)) (branch_of r) (r_locker_id r) (next_history_id d0)]) /\
    seat_assignments d' =
      filter (fun a => negb (sa_student_id a =? id)) (seat_assignments d0) ++
      map (fun sh => mkAssignment (r_seat_id r) sh id) (r_shift_ids r)) d0.
Proof.
  unfold renew_body, select, exec. cbv zeta.
  repeat first [ apply wp_for_check; intros ?Hck; cbv beta in *
               | apply wp_for_insert; cbn [fst snd]
               | wp_step ].
  all: cbn; repeat split; try reflexivity; try assumption.
  all: first
    [ eexists; split; [reflexivity|]; split; [|reflexivity];
      match goal with H : l_is_assigned ?l && _ = false |- _ =>
        destruct (l_is_assigned l); cbn in H;
        [right; apply opt_eqb_true, negb_false_iff, H|left; reflexivity] end
    | match goal with H : fst (update_student _ _ _) = Some _ |- _ =>
        unfold update_student in H; cbn [fst] in H;
        change (find_student id (free_lockers_of id d0)) with (find_student id d0) in H;
        destruct (find_student id d0) as [s0|]; cbn in H;
        [injection H as <-; exists s0; repeat split|discriminate] end ].
Qed.

Lemma map_id_overwrite (f : history_row -> history_row) (t : option nat) (hs : list history_row) :
  (forall h, h_id (f h) = h_id h) ->
  map h_id (map (fun h => if opt_eqb (Some (h_id h)) t then f h else h) hs) = map h_id hs.
Proof.
  intros Hf; rewrite map_map; apply map_ext; intros h.
  destruct (opt_eqb _ _); auto.
Qed.

Lemma edit_body_post id r d0 :
  wp (edit_body id r) (fun _ d' =>
    let fee := num_or0 (r_total_fee r) in
    let paid := num_or0 (r_amount_paid r) in
    let disc := num_or0 (r_discount r) in
    let due := (fee - disc - paid)%Q in
    exists p, find_student id d0 = Some p /\
    (match r_locker_id r with
     | Some lid => exists l, find_locker lid d0 = Some l /\
         (l_is_assigned l = false \/ l_student_id l = Some id) /\
         lockers d' = lockers (assign_locker id lid
                        (match s_locker_id p with Some pl => free_locker pl d0 | None => d0 end))
     | None => lockers d' =
         lockers (match s_locker_id p with Some pl => free_locker pl d0 | None => d0 end)
     end) /\
    students d' = map (fun s => if s_id s =? id then edit_row r fee paid due disc s else s)
                      (students d0) /\
    seat_assignments d' =
      filter (fun a => negb (sa_student_id a =? id)) (seat_assignments d0) ++
      map (fun sh => mkAssignment (r_seat_id r) sh id) (r_shift_ids r) /\
    map h_id (history d') = map h_id (history d0)) d0.
Proof.
  unfold edit_body, select, exec. cbv zeta.
  repeat first [ apply wp_for_insert; cbn [fst snd]
               | wp_step ].
  all: eexists; split; [reflexivity|];
    repeat match goal with H : s_locker_id _ = _ |- _ => rewrite H; clear H end;
    cbn; repeat split; try reflexivity;
    try (apply map_id_overwrite; intros ?; reflexivity).
  all: try (eexists; split; [reflexivity|]; split; [|reflexivity];
      match goal with H : l_is_assigned ?l && _ = false |- _ =>
        destruct (l_is_assigned l); cbn in H;
        [right; apply opt_eqb_true, negb_false_iff, H|left; reflexivity] end).
Qed.

Lemma find_map_key {T} (key : T -> nat) (g : T -> T) (k : nat) (l : list T) :
  (forall x, key (g x) = key x) ->
  find (fun x => key x =? k) (map g l) = option_map g (find (fun x => key x =? k) l).
Proof.
  intros Hg; induction l as [|x t IH]; cbn; [reflexivity|].
  rewrite Hg; destruct (key x =? k); [reflexivity|exact IH].
Qed.

Lemma seat_taken_false seat sh d a :
  seat_taken seat sh d = false -> In a (seat_assignments d) ->
  sa_seat_id a = Some seat -> sa_shift_id a <> sh.
Proof.
  intros H Hin Hs Hsh. unfold seat_taken in H.
  rewrite <- Bool.not_true_iff_false in H; apply H, existsb_exists.
  exists a; split; [exact Hin|]. rewrite Hs, Hsh; cbn; rewrite !Nat.eqb_refl; reflexivity.
Qed.

Lemma seat_taken_by_other_false seat sh sid d a :
  seat_taken_by_other seat sh sid d = false -> In a (seat_assignments d) ->
  sa_seat_id a = Some seat -> sa_shift_id a = sh -> sa_student_id a = sid.
Proof.
  intros H Hin Hs Hsh. unfold seat_taken_by_other in H.
  destruct (Nat.eq_dec (sa_student_id a) sid) as [E|E]; [exact E|exfalso].
  rewrite <- Bool.not_true_iff_false in H; apply H, existsb_exists.
  exists a; split; [exact Hin|]. rewrite Hs, Hsh; cbn; rewrite !Nat.eqb_refl; cbn.
  apply Nat.eqb_neq in E; rewrite E; reflexivity.
Qed.

Lemma Qneg_false x : Qneg x = false -> (0 <= x)%Q.
Proof. unfold Qneg; intros H; apply negb_false_iff, Qle_bool_iff in H; exact H. Qed.

(** X17: a successful Enroll appends one active student row with the next student id and the requested locker, due = fee - discount - amount_paid on its own fields, one assignment per requested shift, and one history row that snapshots it; both id counters advance by one. *)
Theorem enroll_success_rows (b : option nat) (r : student_req) (d d' : db)
  (H : enroll b r d = (Ok, d')) :
  exists s, students d' = students d ++ [s] /\
    s_id s = next_student_id d /\ s_is_active s = true /\
    s_locker_id s = r_locker_id r /\
    (s_due_amount s == s_total_fee s - s_discount s - s_amount_paid s)%Q /\
    seat_assignments d' = seat_assignments d ++
      map (fun sh => mkAssignment (r_seat_id r) sh (s_id s)) (r_shift_ids r) /\
    history d' = history d ++
      [snapshot s (r_seat_id r) (first_shift (r_shift_ids r)) (branch_of r)
         (r_locker_id r) (next_history_id d)] /\
    next_student_id d' = S (next_student_id d) /\
    next_history_id d' = S (next_history_id d).
Proof.
  pose proof (transaction_ok _ _ b d d' (enroll_body_post r d) H) as Hp; cbv zeta in Hp.
  destruct Hp as (_ & _ & _ & _ & _ & _ & _ & _ & Hs & Ha & Hh & Hn1 & Hn2).
  eexists; split; [exact Hs|]. cbn.
  repeat split; try assumption; reflexivity.
Qed.

Lemma enroll_success_rows_witness :
  enroll None req_asha db_empty = (Ok, db_asha) /\
  exists s, students db_asha = students db_empty ++ [s] /\
    s_id s = next_student_id db_empty /\ s_is_active s = true /\
    s_locker_id s = r_locker_id req_asha /\
    (s_due_amount s == s_total_fee s - s_discount s - s_amount_paid s)%Q /\
    seat_assignments db_asha = seat_assignments db_empty ++
      map (fun sh => mkAssignment (r_seat_id req_asha) sh (s_id s)) (r_shift_ids req_asha) /\
    history db_asha = history db_empty ++
      [snapshot s (r_seat_id req_asha) (first_shift (r_shift_ids req_asha))
         (branch_of req_asha) (r_locker_id req_asha) (next_history_id db_empty)] /\
    next_student_id db_asha = S (next_student_id db_empty) /\
    next_history_id db_asha = S (next_history_id db_empty).
Proof.
  assert (H : enroll None req_asha db_empty = (Ok, db_asha)) by (vm_compute; reflexivity).
  split; [exact H|exact (enroll_success_rows _ _ _ _ H)].
Defined.

(** X18: a successful Enroll had non-negative fee, amount paid, discount, cash, online and security money; a requested seat with shifts exists, each shift exists, and afterwards every assignment of that seat and shift belongs to the new member; a requested locker existed unassigned and is now assigned to the new member. *)
Theorem enroll_success_checks (b : option nat) (r : student_req) (d d' : db)
  (H : enroll b r d = (Ok, d')) :
  (0 <= num_or0 (r_total_fee r))%Q /\ (0 <= num_or0 (r_amount_paid r))%Q /\
  (0 <= num_or0 (r_discount r))%Q /\ (0 <= num_or0 (r_cash r))%Q /\
  (0 <= num_or0 (r_online r))%Q /\ (0 <= num_or0 (r_security_money r))%Q /\
  (forall seat, r_seat_id r = Some seat -> r_shift_ids r <> [] ->
     In seat (seats d) /\
     forall sh, In sh (r_shift_ids r) -> In sh (schedules d) /\
       forall a, In a (seat_assignments d') -> sa_seat_id a = Some seat ->
         sa_shift_id a = sh -> sa_student_id a = next_student_id d) /\
  (forall lid, r_locker_id r = Some lid ->
     (exists l, find_locker lid d = Some l /\ l_is_assigned l = false) /\
     find_locker lid d' = Some (mkLocker lid true (Some (next_student_id d)))).
Proof.
  pose proof (transaction_ok _ _ b d d' (enroll_body_post r d) H) as Hp; cbv zeta in Hp.
  destruct Hp as (H1 & H2 & H3 & H4 & H5 & H6 & Hseat & Hlck & _ & Ha & _).
  do 6 (split; [apply Qneg_false; assumption|]).
  split.
  - intros seat Hs Hl. rewrite Hs in Hseat. destruct (r_shift_ids r) as [|x t]; [contradiction|].
    destruct Hseat as [Hst Hsh]. split.
    { apply existsb_exists in Hst as (y & Hy & E); apply Nat.eqb_eq in E; subst; exact Hy. }
    intros sh Hin. destruct (Hsh sh Hin) as [Hsc Hfree]. split.
    { apply existsb_exists in Hsc as (y & Hy & E); apply Nat.eqb_eq in E; subst; exact Hy. }
    intros a Ha' Has Hash. rewrite Ha in Ha'. apply in_app_or in Ha' as [Hold|Hnew].
    + exfalso; exact (seat_taken_false seat sh d a Hfree Hold Has Hash).
    + apply in_map_iff in Hnew as (sh' & <- & _); reflexivity.
  - intros lid Hl; rewrite Hl in Hlck; destruct Hlck as (l & Hf & Hfree & Hls).
    split; [exists l; split; assumption|].
    unfold find_locker in *; rewrite Hls.
    rewrite (find_update l_id lid (fun l => mkLocker (l_id l) true (Some (next_student_id d))))
      by reflexivity.
    rewrite Hf; cbn. rewrite (find_key l_id lid _ l Hf); reflexivity.
Qed.

Lemma enroll_success_checks_witness :
  enroll None req_bala db_asha = (Ok, db_two) /\
  (0 <= num_or0 (r_total_fee req_bala))%Q /\ (0 <= num_or0 (r_amount_paid req_bala))%Q /\
  (0 <= num_or0 (r_discount req_bala))%Q /\ (0 <= num_or0 (r_cash req_bala))%Q /\
  (0 <= num_or0 (r_online req_bala))%Q /\ (0 <= num_or0 (r_security_money req_bala))%Q /\
  (forall seat, r_seat_id req_bala = Some seat -> r_shift_ids req_bala <> [] ->
     In seat (seats db_asha) /\
     forall sh, In sh (r_shift_ids req_bala) -> In sh (schedules db_asha) /\
       forall a, In a (seat_assignments db_two) -> sa_seat_id a = Some seat ->
         sa_shift_id a = sh -> sa_student_id a = next_student_id db_asha) /\
  (forall lid, r_locker_id req_bala = Some lid ->
     (exists l, find_locker lid db_asha = Some l /\ l_is_assigned l = false) /\
     find_locker lid db_two = Some (mkLocker lid true (Some (next_student_id db_asha)))).
Proof.
  assert (H : enroll None req_bala db_asha = (Ok, db_two)) by (vm_compute; reflexivity).
  split; [exact H|exact (enroll_success_checks _ _ _ _ H)].
Defined.

(** X19: after a successful Renew the member's row and the one appended history row (with the next history id, for this member) both satisfy due = fee - discount - (cash + online) with amount_paid = cash + online. *)
Theorem renew_success_balanced (b : option nat) (id : nat) (r : student_req) (d d' : db)
  (H : renew b id r d = (Ok, d')) :
  exists s' h, find_student id d' = Some s' /\ history d' = history d ++ [h] /\
    s_balanced s' /\ h_balanced h /\
    (s_amount_paid s' == col (s_cash s') + col (s_online s'))%Q /\
    (h_amount_paid h == col (h_cash h) + col (h_online h))%Q /\
    h_student_id h = id /\ h_id h = next_history_id d.
Proof.
  pose proof (transaction_ok _ _ b d d' (renew_body_post id r d) H) as Hp; cbv zeta in Hp.
  destruct Hp as (_ & _ & (s0 & Hs0 & Hst & Hh) & _).
  do 2 eexists; split; [|split; [exact Hh|]].
  - unfold find_student; rewrite Hst.
    rewrite (find_update s_id id) by reflexivity.
    unfold find_student in Hs0; rewrite Hs0; reflexivity.
  - unfold s_balanced, h_balanced; cbn.
    pose proof (find_key s_id id _ s0 Hs0) as Hid.
    repeat split; try lra. exact Hid.
Qed.

Lemma renew_success_balanced_witness :
  renew None 1 req_asha_feb db_asha = (Ok, db_asha_renewed) /\
  exists s' h, find_student 1 db_asha_renewed = Some s' /\
    history db_asha_renewed = history db_asha ++ [h] /\
    s_balanced s' /\ h_balanced h /\
    (s_amount_paid s' == col (s_cash s') + col (s_online s'))%Q /\
    (h_amount_paid h == col (h_cash h) + col (h_online h))%Q /\
    h_student_id h = 1 /\ h_id h = next_history_id db_asha.
Proof.
  assert (H : renew None 1 req_asha_feb db_asha = (Ok, db_asha_renewed)) by (vm_compute; reflexivity).
  split; [exact H|exact (renew_success_balanced _ _ _ _ _ H)].
Defined.

(** X20: after a successful Renew the member's old assignments are replaced by one per requested shift, others are kept, and every assignment on a requested seat and shift belongs to the member. *)
Theorem renew_success_assignments (b : option nat) (id : nat) (r : student_req) (d d' : db)
  (H : renew b id r d = (Ok, d')) :
  (forall a, In a (seat_assignments d') <->
     (In a (seat_assignments d) /\ sa_student_id a <> id) \/
     In a (map (fun sh => mkAssignment (r_seat_id r) sh id) (r_shift_ids r))) /\
  (forall seat sh a, r_seat_id r = Some seat -> In sh (r_shift_ids r) ->
     In a (seat_assignments d') -> sa_seat_id a = Some seat -> sa_shift_id a = sh ->
     sa_student_id a = id).
Proof.
  pose proof (transaction_ok _ _ b d d' (renew_body_post id r d) H) as Hp; cbv zeta in Hp.
  destruct Hp as (Hseat & _ & _ & Ha).
  split.
  - intros a; rewrite Ha, in_app_iff, In_filter_other; reflexivity.
  - intros seat sh a Hs Hin Ha' Has Hash.
    rewrite Ha in Ha'; apply in_app_or in Ha' as [Hold|Hnew].
    + apply In_filter_other in Hold as [Hold Hne]. exfalso; apply Hne.
      rewrite Hs in Hseat. destruct (r_shift_ids r) as [|x t]; [destruct Hin|].
      exact (seat_taken_by_other_false seat sh id d a (Hseat sh Hin) Hold Has Hash).
    + apply in_map_iff in Hnew as (sh' & <- & _); reflexivity.
Qed.

Lemma renew_success_assignments_witness :
  renew None 1 req_asha_feb db_asha = (Ok, db_asha_renewed) /\
  (forall a, In a (seat_assignments db_asha_renewed) <->
     (In a (seat_assignments db_asha) /\ sa_student_id a <> 1) \/
     In a (map (fun sh => mkAssignment (r_seat_id req_asha_feb) sh 1)
                 (r_shift_ids req_asha_feb))) /\
  (forall seat sh a, r_seat_id req_asha_feb = Some seat -> In sh (r_shift_ids req_asha_feb) ->
     In a (seat_assignments db_asha_renewed) -> sa_seat_id a = Some seat ->
     sa_shift_id a = sh -> sa_student_id a = 1).
Proof.
  assert (H : renew None 1 req_asha_feb db_asha = (Ok, db_asha_renewed)) by (vm_compute; reflexivity).
  split; [exact H|exact (renew_success_assignments _ _ _ _ _ H)].
Defined.

(** X21: after a successful Renew the only locker pointing to the member is the requested one, which is assigned to it. *)
Theorem renew_success_lockers (b : option nat) (id : nat) (r : student_req) (d d' : db)
  (H : renew b id r d = (Ok, d')) :
  (forall l, In l (lockers d') -> l_student_id l = Some id -> r_locker_id r = Some (l_id l)) /\
  (forall lid, r_locker_id r = Some lid ->
     find_locker lid d' = Some (mkLocker lid true (Some id))).
Proof.
  pose proof (transaction_ok _ _ b d d' (renew_body_post id r d) H) as Hp; cbv zeta in Hp.
  destruct Hp as (_ & Hlck & _ & _).
  split.
  - intros l Hl Hsid.
    destruct (r_locker_id r) as [lid|].
    + destruct Hlck as (l0 & _ & _ & Hls). rewrite Hls in Hl; cbn in Hl.
      apply in_map_iff in Hl as (l1 & <- & Hl1).
      destruct (l_id l1 =? lid) eqn:E; cbn in Hsid |- *.
      * apply Nat.eqb_eq in E; rewrite E; reflexivity.
      * exfalso.
        exact (proj1 (In_free_lockers_of id d l1 Hl1) Hsid).
    + rewrite Hlck in Hl. exfalso; exact (proj1 (In_free_lockers_of id d l Hl) Hsid).
  - intros lid Hl; rewrite Hl in Hlck; destruct Hlck as (l & Hf & _ & Hls).
    unfold find_locker; rewrite Hls; cbn.
    rewrite (find_update l_id lid (fun l => mkLocker (l_id l) true (Some id))) by reflexivity.
    rewrite (find_map_key l_id) by (intros x; destruct (opt_eqb _ _); reflexivity).
    unfold find_locker in Hf; rewrite Hf; cbn.
    destruct (opt_eqb (l_student_id l) (Some id)); cbn;
      rewrite ?(find_key l_id lid _ l Hf); reflexivity.
Qed.

Lemma renew_success_lockers_witness :
  renew None 1 req_asha_feb db_asha = (Ok, db_asha_renewed) /\
  (forall l, In l (lockers db_asha_renewed) -> l_student_id l = Some 1 ->
     r_locker_id req_asha_feb = Some (l_id l)) /\
  (forall lid, r_locker_id req_asha_feb = Some lid ->
     find_locker lid db_asha_renewed = Some (mkLocker lid true (Some 1))).
Proof.
  assert (H : renew None 1 req_asha_feb db_asha = (Ok, db_asha_renewed)) by (vm_compute; reflexivity).
  split; [exact H|exact (renew_success_lockers _ _ _ _ _ H)].
Defined.

(** X22: a successful Edit targeted an existing member; its row keeps the active flag, stores cash, online and locker from the request and due = fee - discount - amount_paid; its assignments are replaced; the requested locker is assigned to it, a different previous locker is released; the history ids are unchanged. *)
Theorem edit_success (b : option nat) (id : nat) (r : student_req) (d d' : db)
  (H : edit b id r d = (Ok, d')) :
  exists p s', find_student id d = Some p /\ find_student id d' = Some s' /\
    s_is_active s' = s_is_active p /\ s_locker_id s' = r_locker_id r /\
    s_cash s' = r_cash r /\ s_online s' = r_online r /\
    (s_due_amount s' == s_total_fee s' - s_discount s' - s_amount_paid s')%Q /\
    (forall a, In a (seat_assignments d') <->
       (In a (seat_assignments d) /\ sa_student_id a <> id) \/
       In a (map (fun sh => mkAssignment (r_seat_id r) sh id) (r_shift_ids r))) /\
    (forall lid, r_locker_id r = Some lid ->
       find_locker lid d' = Some (mkLocker lid true (Some id))) /\
    (forall pl, s_locker_id p = Some pl -> r_locker_id r <> Some pl ->
       find_locker pl d <> None -> find_locker pl d' = Some (mkLocker pl false None)) /\
    map h_id (history d') = map h_id (history d).
Proof.
  pose proof (transaction_ok _ _ b d d' (edit_body_post id r d) H) as Hp; cbv zeta in Hp.
  destruct Hp as (p & Hp & Hlck & Hst & Ha & Hh).
  assert (Hpid : s_id p = id) by exact (find_key s_id id _ p Hp).
  exists p; eexists; split; [exact Hp|]; split.
  { unfold find_student; rewrite Hst.
    rewrite (find_update s_id id) by reflexivity.
    unfold find_student in Hp; rewrite Hp; reflexivity. }
  cbn. split; [reflexivity|]. split; [reflexivity|].
  split; [reflexivity|]. split; [reflexivity|]. split; [lra|].
  split; [intros a; rewrite Ha, in_app_iff, In_filter_other; reflexivity|].
  split; [|split; [|exact Hh]].
  - intros lid Hl; rewrite Hl in Hlck; destruct Hlck as (l & Hf & _ & Hls).
    unfold find_locker; rewrite Hls; cbn.
    rewrite (find_update l_id lid (fun l => mkLocker (l_id l) true (Some id))) by reflexivity.
    destruct (s_locker_id p) as [pl|]; cbn.
    + rewrite (find_map_key l_id) by (intros x; destruct (l_id x =? pl); reflexivity).
      unfold find_locker in Hf; rewrite Hf; cbn.
      destruct (l_id l =? pl); cbn; rewrite ?(find_key l_id lid _ l Hf); reflexivity.
    + unfold find_locker in Hf; rewrite Hf; cbn.
      rewrite (find_key l_id lid _ l Hf); reflexivity.
  - intros pl Hpl Hne Hex. rewrite Hpl in Hlck.
    destruct (find_locker pl d) as [l0|] eqn:Hf0; [|contradiction].
    unfold find_locker in Hf0 |- *.
    destruct (r_locker_id r) as [lid|].
    + destruct Hlck as (l & _ & _ & Hls). rewrite Hls; cbn.
      rewrite (find_update_other l_id lid pl) by
        (reflexivity || (intros E; apply Hne; rewrite E; reflexivity)).
      cbn. rewrite (find_update l_id pl (fun l => mkLocker (l_id l) false None)) by reflexivity.
      rewrite Hf0; cbn; rewrite (find_key l_id pl _ l0 Hf0); reflexivity.
    + rewrite Hlck; cbn.
      rewrite (find_update l_id pl (fun l => mkLocker (l_id l) false None)) by reflexivity.
      rewrite Hf0; cbn; rewrite (find_key l_id pl _ l0 Hf0); reflexivity.
Qed.

Lemma edit_success_witness :
  edit None 1 req_asha_locker2 db_asha = (Ok, db_asha_locker2) /\
  exists p s', find_student 1 db_asha = Some p /\ find_student 1 db_asha_locker2 = Some s' /\
    s_is_active s' = s_is_active p /\ s_locker_id s' = r_locker_id req_asha_locker2 /\
    s_cash s' = r_cash req_asha_locker2 /\ s_online s' = r_online req_asha_locker2 /\
    (s_due_amount s' == s_total_fee s' - s_discount s' - s_amount_paid s')%Q /\
    (forall a, In a (seat_assignments db_asha_locker2) <->
       (In a (seat_assignments db_asha) /\ sa_student_id a <> 1) \/
       In a (map (fun sh => mkAssignment (r_seat_id req_asha_locker2) sh 1)
                   (r_shift_ids req_asha_locker2))) /\
    (forall lid, r_locker_id req_asha_locker2 = Some lid ->
       find_locker lid db_asha_locker2 = Some (mkLocker lid true (Some 1))) /\
    (forall pl, s_locker_id p = Some pl -> r_locker_id req_asha_locker2 <> Some pl ->
       find_locker pl db_asha <> None ->
       find_locker pl db_asha_locker2 = Some (mkLocker pl false None)) /\
    map h_id (history db_asha_locker2) = map h_id (history db_asha).
Proof.
  assert (H : edit None 1 req_asha_locker2 db_asha = (Ok, db_asha_locker2))
    by (vm_compute; reflexivity).
  split; [exact H|exact (edit_success _ _ _ _ _ H)].
Defined.

(** X23: Edit and Renew of a member that does not exist never succeed and never change the state. *)
Theorem edit_renew_missing_member (b : option nat) (id : nat) (r : student_req) (d : db)
  (H : find_student id d = None) :
  (exists e, edit b id r d = (Error e, d)) /\ (exists e, renew b id r d = (Error e, d)).
Proof.
  split.
  - destruct (transaction_cases _ _ b d (edit_body_post id r d)) as [He|(d' & _ & p & Hp & _)];
      [exact He|]. rewrite H in Hp; discriminate.
  - destruct (transaction_cases _ _ b d (renew_body_post id r d)) as [He|(d' & _ & Hp)];
      [exact He|]. cbv zeta in Hp. destruct Hp as (_ & _ & (s0 & Hs0 & _) & _).
    rewrite H in Hs0; discriminate.
Qed.

Lemma edit_renew_missing_member_witness :
  find_student 1 db_empty = None /\
  (exists e, edit None 1 req_asha db_empty = (Error e, db_empty)) /\
  (exists e, renew None 1 req_asha db_empty = (Error e, db_empty)).
Proof. split; [reflexivity|apply edit_renew_missing_member; reflexivity]. Defined.

(** X24: for a member that does not exist and a valid request without seat or locker, Edit fails with Internal (the 500 of the throwing previous-locker lookup) and Renew with NotFound, without storage failure. *)
Theorem missing_member_codes (id : nat) (r : student_req) (d : db)
  (H : find_student id d = None)
  (Hname : blank (r_name r) = false) (Hphone : blank (r_phone r) = false)
  (Haddr : blank (r_address r) = false) (Hbr : is_some (r_branch_id r) = true)
  (Hstart : blank (r_membership_start r) = false) (Hend : blank (r_membership_end r) = false)
  (Hseat : r_seat_id r = None) (Hlck : r_locker_id r = None) :
  edit None id r d = (Error Internal, d) /\ renew None id r d = (Error NotFound, d).
Proof.
  split.
  - unfold edit, transaction, edit_body, select, exec.
    rewrite Hname, Hphone, Haddr, Hbr, Hstart, Hend, Hlck; cbn.
    rewrite H; reflexivity.
  - unfold renew, transaction, renew_body, select, exec.
    rewrite Hname, Hphone, Hbr, Hstart, Hend, Hseat, Hlck; cbn.
    unfold update_student, find_student in *; cbn.
    rewrite H; reflexivity.
Qed.

Lemma missing_member_codes_witness :
  find_student 5 db_asha = None /\
  edit None 5 req_walkin db_asha = (Error Internal, db_asha) /\
  renew None 5 req_walkin db_asha = (Error NotFound, db_asha).
Proof.
  split; [vm_compute; reflexivity|].
  apply missing_member_codes; vm_compute; reflexivity.
Defined.

(** X25: [latest_history_id] gives the largest id among the member's history rows, which is the id of one of them, and None exactly when the member has no history row. *)
Theorem latest_history_id_max (sid : nat) (hs : list history_row) :
  match latest_history_id sid hs with
  | Some t => (exists h, In h hs /\ h_id h = t /\ h_student_id h = sid) /\
              (forall h, In h hs -> h_student_id h = sid -> h_id h <= t)
  | None => forall h, In h hs -> h_student_id h <> sid
  end.
Proof.
  assert (Hmax : forall t, latest_history_id sid hs = Some t ->
            forall h, In h hs -> h_student_id h = sid -> h_id h <= t).
  { induction hs as [|h0 hs IH]; intros t Ht h Hin Hs; [destruct Hin|].
    cbn in Ht. destruct (h_student_id h0 =? sid) eqn:E.
    - destruct (latest_history_id sid hs) as [m|] eqn:Em; inversion Ht; subst t.
      + destruct Hin as [<-|Hin]; [lia|].
        specialize (IH m eq_refl h Hin Hs); lia.
      + destruct Hin as [<-|Hin]; [lia|].
        exfalso. clear IH. induction hs as [|h1 hs IH']; [destruct Hin|].
        cbn in Em. destruct (h_student_id h1 =? sid) eqn:E1.
        * destruct (latest_history_id sid hs); discriminate.
        * destruct Hin as [<-|Hin]; [apply Nat.eqb_neq in E1; contradiction|].
          exact (IH' Em Hin).
    - destruct Hin as [<-|Hin].
      + apply Nat.eqb_neq in E; contradiction.
      + exact (IH t Ht h Hin Hs). }
  destruct (latest_history_id sid hs) as [t|] eqn:Ht.
  - split; [exact (latest_history_id_in sid hs t Ht)|exact (Hmax t eq_refl)].
  - clear Hmax. induction hs as [|h0 hs IH]; intros h Hin; [destruct Hin|].
    cbn in Ht. destruct (h_student_id h0 =? sid) eqn:E.
    + destruct (latest_history_id sid hs); discriminate.
    + destruct Hin as [<-|Hin]; [apply Nat.eqb_neq in E; exact E|exact (IH Ht h Hin)].
Qed.

